(** * ECG measurement application: the acquisition-to-metrics core

    A shallow embedding of [src/ecg_ui.py] (class [EcgWindow] and the serial
    reader) and the properties its specification states about it.

    Python integers are [Z], list indices and lengths are [nat], Python
    floats are the kernel's binary64 [float]s, and an exception that can
    escape a function is a value of [Py.result].  The Qt widgets, the
    Matplotlib canvas and the pySerial port are kept only as the fields the
    core writes to them (texts of the labels, the plotted line, the codes
    written to the port, the message boxes shown). *)

From Stdlib Require Import ZArith List Bool Lia Floats.
Import ListNotations.

Local Open Scope Z_scope.
Set Warnings "-abstract-large-number".

(** ** The pieces of the Python runtime the program uses *)

Module Py.

Inductive exn : Set :=
| StatisticsError      (* statistics.fmean of no data *)
| ZeroDivisionError    (* int / 0 *)
| UnboundLocalError.   (* a local read before it was assigned *)

Inductive result (A : Type) : Type :=
| Ok (a : A)
| Raise (e : exn).
Arguments Ok {A} a.
Arguments Raise {A} e.

Definition bind {A B : Type} (c : result A) (k : A -> result B) : result B :=
  match c with
  | Ok a => k a
  | Raise e => Raise e
  end.

(** [float(n)] for an integer [n]: the nearest double, ties to even. *)
Definition float_of_Z (z : Z) : float :=
  SF2Prim (binary_normalize prec emax z 0 false).

Definition Z2SF (z : Z) : spec_float :=
  match z with
  | Z0 => S754_zero false
  | Zpos p => S754_finite false p 0
  | Zneg p => S754_finite true p 0
  end.

(** The correctly rounded quotient of two integers, [b] not zero. *)
Definition div_Z_float (a b : Z) : float :=
  SF2Prim (SFdiv prec emax (Z2SF a) (Z2SF b)).

(** [a / b] on integers (true division).  The overflow error of a quotient
    beyond the doubles is left out: the operands here are counts of samples
    and of intervals. *)
Definition truediv (a b : Z) : result float :=
  if b =? 0 then Raise ZeroDivisionError else Ok (div_Z_float a b).

(** [int(x)]: truncation toward zero.  CPython raises on an infinity or a
    NaN; every operand this program passes is a finite combination of list
    lengths and small constants, and the value chosen there is 0. *)
Definition int_of_float (x : float) : Z :=
  match Prim2SF x with
  | S754_finite s m e =>
      let v := match e with
               | Zneg p => Z.shiftr (Zpos m) (Zpos p)
               | _ => Z.shiftl (Zpos m) e
               end in
      if s then - v else v
  | _ => 0
  end.

(** The integer nearest to [num / den] ([den] positive), ties to even. *)
Definition round_half_even (num den : Z) : Z :=
  let q := num / den in
  match 2 * (num mod den) ?= den with
  | Lt => q
  | Gt => q + 1
  | Eq => if Z.even q then q else q + 1
  end.

(** The number of tenths [round(x, 1)] keeps of the magnitude of a finite,
    non-zero [x = m * 2^e]. *)
Definition tenths (m : positive) (e : Z) : Z :=
  match e with
  | Zneg p => round_half_even (10 * Zpos m) (2 ^ Zpos p)
  | _ => 10 * Zpos m * 2 ^ e
  end.

(** [round(x, 1)]: the exact binary value of [x] rounded to one decimal,
    ties to even, and the double nearest to that decimal. *)
Definition round1 (x : float) : float :=
  match Prim2SF x with
  | S754_finite s m e =>
      let r := div_Z_float (tenths m e) 10 in
      if s then (- r)%float else r
  | _ => x
  end.

Definition sum (data : list Z) : Z := fold_right Z.add 0 data.

(** [statistics.fmean(data)] on integers: [math.fsum(data) / len(data)],
    the sum exact and rounded once.  The overflow error of data beyond the
    doubles is left out: the data here are intervals in milliseconds. *)
Definition fmean (data : list Z) : result float :=
  match data with
  | [] => Raise StatisticsError
  | _ :: _ => Ok (float_of_Z (sum data) / float_of_Z (Z.of_nat (length data)))%float
  end.

(** [pow(10, -3)]. *)
Definition pow_10_m3 : float := 0x1.0624dd2f1a9fcp-10%float.

Definition clamp_index (n i : Z) : Z :=
  if i <? 0 then Z.max 0 (i + n) else Z.min i n.

(** [l[a:b]]. *)
Definition slice {A : Type} (l : list A) (a b : Z) : list A :=
  let n := Z.of_nat (length l) in
  let a' := clamp_index n a in
  let b' := clamp_index n b in
  firstn (Z.to_nat (b' - a')) (skipn (Z.to_nat a') l).

(** [range(a, b)] for a start that is not negative. *)
Definition range (a : nat) (b : Z) : list nat :=
  seq a (Z.to_nat (b - Z.of_nat a)).

End Py.

Import Py.

Notation "x <- c ;; k" := (Py.bind c (fun x => k))
  (at level 61, c at next level, right associativity).

(** ** Codes *)

Inductive SerialCode : Set := START_MEASUREMENT | STOP_MEASUREMENT.
Inductive ButtonCode : Set := BACK | STOP.
Inductive StackCode : Set := HOME | GRAPH.
Inductive ErrorCode : Set := NO_ERROR | INVALID_CONTENT | NOT_ENOUGH_DATA.

(** A message box that was shown, by its window title. *)
Inductive MessageBox : Set :=
| Connection_error
| File_loading_error (error_code : ErrorCode)
| Signal_processing_error.

(** ** Configuration ([EcgWindow.__init__]) *)

Definition display_count : nat := 2000.
Definition min_ydata_value : Z := 0.
Definition max_ydata_value : Z := 4095.
Definition sampling_time : Z := 2.
Definition sampling_rate : Z :=
  int_of_float (1 / (float_of_Z sampling_time * pow_10_m3))%float.
Definition measurement_duration : Z := 30.
Definition time_between_health_data_calculations : Z := 3.
Definition r_peak_upper_threshold : Z := 2600.
Definition r_peak_lower_threshold : Z := 2000.
Definition slider_min_value : Z := 0.
Definition slider_max_value : Z := 100.

(** ** State *)

(** The fields [detect_r_peaks] owns. *)
Record Detector : Type := {
  r_peak_detectable : bool;
  r_peak_intervals : list Z;
  r_peak_interval_counter : Z
}.

(** What the widgets show. A label is [None] while it shows a dash. *)
Record Widgets : Type := {
  stack : StackCode;
  universal_button : ButtonCode;
  countdown_label : option Z;
  rr_interval_label : option float;
  bpm_label : option Z;
  slider_shown : bool;
  plot : option (list Z);
  message_boxes : list MessageBox
}.

(** [ser], [ecg_data] and [is_measurement_in_progress] are the one-element
    lists and the list the window shares with the reader thread: both sides
    act on the fields of this one record. *)
Record EcgWindow : Type := {
  ser : bool;
  serial_written : list SerialCode;
  ecg_data : list Z;
  is_measurement_in_progress : bool;
  timer_active : bool;
  ydata : list Z;
  last_processed_index : nat;
  last_time_health_data_calculated : Z;
  slider_jump_value : float;
  detector : Detector;
  widgets : Widgets
}.

(** Field updates. *)

Definition set_detectable (v : bool) (d : Detector) : Detector :=
  {| r_peak_detectable := v;
     r_peak_intervals := r_peak_intervals d;
     r_peak_interval_counter := r_peak_interval_counter d |}.

Definition set_counter (v : Z) (d : Detector) : Detector :=
  {| r_peak_detectable := r_peak_detectable d;
     r_peak_intervals := r_peak_intervals d;
     r_peak_interval_counter := v |}.

Definition set_intervals (v : list Z) (d : Detector) : Detector :=
  {| r_peak_detectable := r_peak_detectable d;
     r_peak_intervals := v;
     r_peak_interval_counter := r_peak_interval_counter d |}.

Definition append_interval (v : Z) (d : Detector) : Detector :=
  {| r_peak_detectable := r_peak_detectable d;
     r_peak_intervals := r_peak_intervals d ++ [v];
     r_peak_interval_counter := r_peak_interval_counter d |}.

Definition set_stack (v : StackCode) (g : Widgets) : Widgets :=
  {| stack := v; universal_button := universal_button g;
     countdown_label := countdown_label g; rr_interval_label := rr_interval_label g;
     bpm_label := bpm_label g; slider_shown := slider_shown g; plot := plot g;
     message_boxes := message_boxes g |}.

Definition set_universal_button (v : ButtonCode) (g : Widgets) : Widgets :=
  {| stack := stack g; universal_button := v;
     countdown_label := countdown_label g; rr_interval_label := rr_interval_label g;
     bpm_label := bpm_label g; slider_shown := slider_shown g; plot := plot g;
     message_boxes := message_boxes g |}.

Definition set_countdown_label (v : option Z) (g : Widgets) : Widgets :=
  {| stack := stack g; universal_button := universal_button g;
     countdown_label := v; rr_interval_label := rr_interval_label g;
     bpm_label := bpm_label g; slider_shown := slider_shown g; plot := plot g;
     message_boxes := message_boxes g |}.

Definition set_rr_interval_label (v : option float) (g : Widgets) : Widgets :=
  {| stack := stack g; universal_button := universal_button g;
     countdown_label := countdown_label g; rr_interval_label := v;
     bpm_label := bpm_label g; slider_shown := slider_shown g; plot := plot g;
     message_boxes := message_boxes g |}.

Definition set_bpm_label (v : option Z) (g : Widgets) : Widgets :=
  {| stack := stack g; universal_button := universal_button g;
     countdown_label := countdown_label g; rr_interval_label := rr_interval_label g;
     bpm_label := v; slider_shown := slider_shown g; plot := plot g;
     message_boxes := message_boxes g |}.

Definition set_slider_shown (v : bool) (g : Widgets) : Widgets :=
  {| stack := stack g; universal_button := universal_button g;
     countdown_label := countdown_label g; rr_interval_label := rr_interval_label g;
     bpm_label := bpm_label g; slider_shown := v; plot := plot g;
     message_boxes := message_boxes g |}.

Definition set_plot (v : option (list Z)) (g : Widgets) : Widgets :=
  {| stack := stack g; universal_button := universal_button g;
     countdown_label := countdown_label g; rr_interval_label := rr_interval_label g;
     bpm_label := bpm_label g; slider_shown := slider_shown g; plot := v;
     message_boxes := message_boxes g |}.

Definition show_message_box (v : MessageBox) (g : Widgets) : Widgets :=
  {| stack := stack g; universal_button := universal_button g;
     countdown_label := countdown_label g; rr_interval_label := rr_interval_label g;
     bpm_label := bpm_label g; slider_shown := slider_shown g; plot := plot g;
     message_boxes := message_boxes g ++ [v] |}.

Definition set_ser (v : bool) (w : EcgWindow) : EcgWindow :=
  {| ser := v; serial_written := serial_written w; ecg_data := ecg_data w;
     is_measurement_in_progress := is_measurement_in_progress w;
     timer_active := timer_active w; ydata := ydata w;
     last_processed_index := last_processed_index w;
     last_time_health_data_calculated := last_time_health_data_calculated w;
     slider_jump_value := slider_jump_value w;
     detector := detector w; widgets := widgets w |}.

Definition set_serial_written (v : list SerialCode) (w : EcgWindow) : EcgWindow :=
  {| ser := ser w; serial_written := v; ecg_data := ecg_data w;
     is_measurement_in_progress := is_measurement_in_progress w;
     timer_active := timer_active w; ydata := ydata w;
     last_processed_index := last_processed_index w;
     last_time_health_data_calculated := last_time_health_data_calculated w;
     slider_jump_value := slider_jump_value w;
     detector := detector w; widgets := widgets w |}.

Definition set_ecg_data (v : list Z) (w : EcgWindow) : EcgWindow :=
  {| ser := ser w; serial_written := serial_written w; ecg_data := v;
     is_measurement_in_progress := is_measurement_in_progress w;
     timer_active := timer_active w; ydata := ydata w;
     last_processed_index := last_processed_index w;
     last_time_health_data_calculated := last_time_health_data_calculated w;
     slider_jump_value := slider_jump_value w;
     detector := detector w; widgets := widgets w |}.

Definition set_is_measurement_in_progress (v : bool) (w : EcgWindow) : EcgWindow :=
  {| ser := ser w; serial_written := serial_written w; ecg_data := ecg_data w;
     is_measurement_in_progress := v;
     timer_active := timer_active w; ydata := ydata w;
     last_processed_index := last_processed_index w;
     last_time_health_data_calculated := last_time_health_data_calculated w;
     slider_jump_value := slider_jump_value w;
     detector := detector w; widgets := widgets w |}.

Definition set_timer_active (v : bool) (w : EcgWindow) : EcgWindow :=
  {| ser := ser w; serial_written := serial_written w; ecg_data := ecg_data w;
     is_measurement_in_progress := is_measurement_in_progress w;
     timer_active := v; ydata := ydata w;
     last_processed_index := last_processed_index w;
     last_time_health_data_calculated := last_time_health_data_calculated w;
     slider_jump_value := slider_jump_value w;
     detector := detector w; widgets := widgets w |}.

Definition set_ydata (v : list Z) (w : EcgWindow) : EcgWindow :=
  {| ser := ser w; serial_written := serial_written w; ecg_data := ecg_data w;
     is_measurement_in_progress := is_measurement_in_progress w;
     timer_active := timer_active w; ydata := v;
     last_processed_index := last_processed_index w;
     last_time_health_data_calculated := last_time_health_data_calculated w;
     slider_jump_value := slider_jump_value w;
     detector := detector w; widgets := widgets w |}.

Definition set_last_processed_index (v : nat) (w : EcgWindow) : EcgWindow :=
  {| ser := ser w; serial_written := serial_written w; ecg_data := ecg_data w;
     is_measurement_in_progress := is_measurement_in_progress w;
     timer_active := timer_active w; ydata := ydata w;
     last_processed_index := v;
     last_time_health_data_calculated := last_time_health_data_calculated w;
     slider_jump_value := slider_jump_value w;
     detector := detector w; widgets := widgets w |}.

Definition set_last_time_health_data_calculated (v : Z) (w : EcgWindow) : EcgWindow :=
  {| ser := ser w; serial_written := serial_written w; ecg_data := ecg_data w;
     is_measurement_in_progress := is_measurement_in_progress w;
     timer_active := timer_active w; ydata := ydata w;
     last_processed_index := last_processed_index w;
     last_time_health_data_calculated := v;
     slider_jump_value := slider_jump_value w;
     detector := detector w; widgets := widgets w |}.

Definition set_slider_jump_value (v : float) (w : EcgWindow) : EcgWindow :=
  {| ser := ser w; serial_written := serial_written w; ecg_data := ecg_data w;
     is_measurement_in_progress := is_measurement_in_progress w;
     timer_active := timer_active w; ydata := ydata w;
     last_processed_index := last_processed_index w;
     last_time_health_data_calculated := last_time_health_data_calculated w;
     slider_jump_value := v;
     detector := detector w; widgets := widgets w |}.

Definition set_detector (v : Detector) (w : EcgWindow) : EcgWindow :=
  {| ser := ser w; serial_written := serial_written w; ecg_data := ecg_data w;
     is_measurement_in_progress := is_measurement_in_progress w;
     timer_active := timer_active w; ydata := ydata w;
     last_processed_index := last_processed_index w;
     last_time_health_data_calculated := last_time_health_data_calculated w;
     slider_jump_value := slider_jump_value w;
     detector := v; widgets := widgets w |}.

Definition set_widgets (v : Widgets) (w : EcgWindow) : EcgWindow :=
  {| ser := ser w; serial_written := serial_written w; ecg_data := ecg_data w;
     is_measurement_in_progress := is_measurement_in_progress w;
     timer_active := timer_active w; ydata := ydata w;
     last_processed_index := last_processed_index w;
     last_time_health_data_calculated := last_time_health_data_calculated w;
     slider_jump_value := slider_jump_value w;
     detector := detector w; widgets := v |}.

Definition on_widgets (f : Widgets -> Widgets) (w : EcgWindow) : EcgWindow :=
  set_widgets (f (widgets w)) w.

(** [EcgWindow.__init__], with the module's globals: no port, no data, no
    measurement, the home screen. *)
Definition init : EcgWindow :=
  {| ser := false; serial_written := []; ecg_data := [];
     is_measurement_in_progress := false; timer_active := false;
     ydata := min_ydata_value :: repeat max_ydata_value (display_count - 1);
     last_processed_index := 0%nat;
     last_time_health_data_calculated := 0;
     slider_jump_value := 0%float;
     detector := {| r_peak_detectable := true; r_peak_intervals := [];
                    r_peak_interval_counter := 0 |};
     widgets := {| stack := HOME; universal_button := STOP;
                   countdown_label := None; rr_interval_label := None;
                   bpm_label := None; slider_shown := false; plot := None;
                   message_boxes := [] |} |}.

(** ** Operations of [EcgWindow], in the order of the source *)

(** What the port does when [serial.Serial(port, baud)] is called is the
    environment's: [connectable] says whether it opens. *)
Definition connect_serial_port (connectable : bool) (w : EcgWindow) : bool * EcgWindow :=
  if connectable then (true, set_ser true w)
  else (false, on_widgets (show_message_box Connection_error) w).

Definition switch_stack (stack_index : StackCode) (w : EcgWindow) : EcgWindow :=
  on_widgets (set_stack stack_index) w.

Definition switch_universal_button (button_code : ButtonCode) (w : EcgWindow) : EcgWindow :=
  on_widgets (set_universal_button button_code) w.

Definition reset_ydata (w : EcgWindow) : EcgWindow :=
  set_ydata ([min_ydata_value] ++ repeat max_ydata_value (display_count - 1)) w.

Definition reset_labels (w : EcgWindow) : EcgWindow :=
  on_widgets (set_bpm_label None)
    (on_widgets (set_rr_interval_label None)
       (on_widgets (set_countdown_label None) w)).

Definition update_plot (w : EcgWindow) : EcgWindow :=
  on_widgets (set_plot (Some (ydata w))) w.

Definition write_serial (code : SerialCode) (w : EcgWindow) : EcgWindow :=
  if ser w then set_serial_written (serial_written w ++ [code]) w else w.

Definition reset_measurement_data_and_graph_ui (w : EcgWindow) : EcgWindow :=
  let w := set_ecg_data [] w in
  let w := set_detector (set_intervals [] (detector w)) w in
  let w := set_last_processed_index 0%nat w in
  let w := set_last_time_health_data_calculated 0 w in
  let w := set_detector (set_counter 0 (detector w)) w in
  let w := set_detector (set_detectable true (detector w)) w in
  let w := reset_ydata w in
  let w := reset_labels w in
  let w := on_widgets (set_slider_shown false) w in
  update_plot w.

Definition start_measurement (w : EcgWindow) : EcgWindow :=
  let w := write_serial START_MEASUREMENT w in
  let w := reset_measurement_data_and_graph_ui w in
  let w := set_timer_active true w in
  set_is_measurement_in_progress true w.

Definition stop_measurement (w : EcgWindow) : EcgWindow :=
  let w := set_is_measurement_in_progress false w in
  let w := write_serial STOP_MEASUREMENT w in
  let w := set_timer_active false w in
  switch_universal_button BACK w.

(** [int(len(self.ecg_data) / self.sampling_rate)]. *)
Definition get_elapsed_time (w : EcgWindow) : Z :=
  int_of_float (div_Z_float (Z.of_nat (length (ecg_data w))) sampling_rate).

Definition is_measurement_finished (w : EcgWindow) : bool :=
  measurement_duration =? get_elapsed_time w.

(** The body of the loop of [detect_r_peaks] at index [i]. *)
Definition detect_step (ecg_data : list Z) (d : Detector) (i : nat) : Detector :=
  let d := set_counter (r_peak_interval_counter d + 1) d in
  if r_peak_detectable d
     && (nth i ecg_data 0 >? r_peak_upper_threshold)
     && (nth i ecg_data 0 >? nth (i + 1) ecg_data 0)
  then
    let d := append_interval (r_peak_interval_counter d * sampling_time) d in
    let d := set_counter 0 d in
    set_detectable false d
  else if nth i ecg_data 0 <? r_peak_lower_threshold
  then set_detectable true d
  else d.

(** The indices one call of [detect_r_peaks] visits. *)
Definition scan_range (w : EcgWindow) : list nat :=
  range (last_processed_index w) (Z.of_nat (length (ecg_data w)) - 1).

Definition detect_r_peaks (w : EcgWindow) : EcgWindow :=
  set_detector (fold_left (detect_step (ecg_data w)) (scan_range w) (detector w)) w.

Definition process_fresh_data (w : EcgWindow) : EcgWindow :=
  let fresh := skipn (last_processed_index w) (ecg_data w) in
  let w := set_ydata (skipn (length fresh) (ydata w) ++ fresh) w in
  let w := detect_r_peaks w in
  set_last_processed_index (length (ecg_data w)) w.

Definition get_rr_interval (w : EcgWindow) : result float :=
  m <- fmean (r_peak_intervals (detector w)) ;;
  Ok (round1 (m * pow_10_m3)%float).

Definition get_bpm (w : EcgWindow) : result Z :=
  q <- truediv (Z.of_nat (length (r_peak_intervals (detector w))) + 1) (get_elapsed_time w) ;;
  Ok (int_of_float (q * float_of_Z 60)%float).

Definition is_health_data_ready_for_calculation (w : EcgWindow) : bool :=
  get_elapsed_time w - last_time_health_data_calculated w
  =? time_between_health_data_calculations.

(** The handler of the bare [except:] of [calculate_and_update_label_values]. *)
Definition signal_processing_error (w : EcgWindow) : EcgWindow :=
  on_widgets (show_message_box Signal_processing_error) (stop_measurement w).

Definition calculate_and_update_label_values (w : EcgWindow) : EcgWindow :=
  let elapsed_time := get_elapsed_time w in
  let w :=
    if is_measurement_in_progress w
    then on_widgets (set_countdown_label (Some (measurement_duration - elapsed_time))) w
    else on_widgets (set_countdown_label None) w in
  if negb (is_measurement_in_progress w) || is_health_data_ready_for_calculation w
  then
    let w := set_last_time_health_data_calculated elapsed_time w in
    match get_rr_interval w with
    | Raise _ => signal_processing_error w
    | Ok rr =>
        let w := on_widgets (set_rr_interval_label (Some rr)) w in
        match get_bpm w with
        | Raise _ => signal_processing_error w
        | Ok bpm => on_widgets (set_bpm_label (Some bpm)) w
        end
    end
  else w.

Definition calculate_slider_jump_value (w : EcgWindow) : EcgWindow :=
  let ecg_data_max_from_index := Z.of_nat (length (ecg_data w)) - Z.of_nat display_count in
  set_slider_jump_value (div_Z_float ecg_data_max_from_index slider_max_value) w.

(** The two indices [slider_action] cuts the buffer at. *)
Definition slider_window (value : Z) (w : EcgWindow) : Z * Z :=
  let display_data_from_index := int_of_float (float_of_Z value * slider_jump_value w)%float in
  if display_data_from_index + Z.of_nat display_count >? Z.of_nat (length (ecg_data w))
  then
    let display_data_to_index := Z.of_nat (length (ecg_data w)) in
    (display_data_to_index - Z.of_nat display_count, display_data_to_index)
  else (display_data_from_index, display_data_from_index + Z.of_nat display_count).

(** The tick labels of the time axis are the canvas's and are not kept. *)
Definition slider_action (value : Z) (w : EcgWindow) : EcgWindow :=
  let '(display_data_from_index, display_data_to_index) := slider_window value w in
  let w := set_ydata (slice (ecg_data w) display_data_from_index display_data_to_index) w in
  update_plot w.

Definition initialize_slider (w : EcgWindow) : EcgWindow :=
  let w := calculate_slider_jump_value w in
  let w := slider_action 0 w in
  on_widgets (set_slider_shown true) w.

Definition tick_method (w : EcgWindow) : EcgWindow :=
  let w :=
    if is_measurement_finished w
    then initialize_slider (stop_measurement w)
    else update_plot (process_fresh_data w) in
  calculate_and_update_label_values w.

(** What the file system and [int(line.strip())] make of the selected path:
    the file cannot be opened or read, or it has these lines, each an
    integer or not one. *)
Inductive FileContent : Type :=
| CannotOpen
| Lines (lines : list (option Z)).

Fixpoint parse_lines (lines : list (option Z)) : option (list Z) :=
  match lines with
  | [] => Some []
  | None :: _ => None
  | Some v :: rest =>
      match parse_lines rest with
      | Some vs => Some (v :: vs)
      | None => None
      end
  end.

(** The local [file_content] after the [try] block: never assigned when
    [open] or [readlines] raised, the raw lines when a line did not parse,
    the integers otherwise. *)
Inductive file_content_local : Type :=
| Unbound
| RawLines (n : nat)
| Parsed (values : list Z).

Definition load_file (filename_with_path : option FileContent) (w : EcgWindow)
  : result (option (list Z) * EcgWindow) :=
  match filename_with_path with
  | None => Ok (None, w)
  | Some file =>
      let '(error_code, file_content) :=
        match file with
        | CannotOpen => (INVALID_CONTENT, Unbound)
        | Lines lines =>
            match parse_lines lines with
            | Some values => (NO_ERROR, Parsed values)
            | None => (INVALID_CONTENT, RawLines (length lines))
            end
        end in
      len <- match file_content with
             | Unbound => Raise UnboundLocalError
             | RawLines n => Ok n
             | Parsed values => Ok (length values)
             end ;;
      let error_code := if (len <? display_count)%nat then NOT_ENOUGH_DATA else error_code in
      match error_code, file_content with
      | NO_ERROR, Parsed values => Ok (Some values, w)
      | _, _ => Ok (None, on_widgets (show_message_box (File_loading_error error_code)) w)
      end
  end.

Definition load_measurement (file_content : list Z) (w : EcgWindow) : EcgWindow :=
  let w := reset_measurement_data_and_graph_ui w in
  let w := set_ecg_data (ecg_data w ++ file_content) w in
  let w := initialize_slider w in
  let w := detect_r_peaks w in
  calculate_and_update_label_values w.

Definition start_button_action (connectable : bool) (w : EcgWindow) : EcgWindow :=
  let '(connected, w) := connect_serial_port connectable w in
  if connected then switch_stack GRAPH (start_measurement w) else w.

Definition load_button_action (selected : option FileContent) (w : EcgWindow)
  : result EcgWindow :=
  r <- load_file selected w ;;
  let '(file_content, w) := r in
  match file_content with
  | Some ((_ :: _) as values) =>
      Ok (switch_stack GRAPH (switch_universal_button BACK (load_measurement values w)))
  | _ => Ok w
  end.

Definition stop_button_action (w : EcgWindow) : EcgWindow :=
  stop_measurement (switch_universal_button BACK w).

(** Closing the port is left to the transport. *)
Definition back_button_action (w : EcgWindow) : EcgWindow :=
  switch_stack HOME (switch_universal_button STOP w).

(** ** The reader thread *)

(** What one [readline()] of [read_serial] comes to. *)
Inductive Reading : Type :=
| ReadRaises
| EmptyLine
| NotAnInteger
| Sample (value : Z).

(** One turn of the loop of [read_serial]; a failed read is printed and
    dropped, an idle turn sleeps. *)
Definition read_serial (r : Reading) (w : EcgWindow) : EcgWindow :=
  if is_measurement_in_progress w && ser w
  then match r with
       | Sample value => set_ecg_data (ecg_data w ++ [value]) w
       | _ => w
       end
  else w.

(** ** Observations used to state the properties *)

(** What a scan did at one index: the sample it read there and whether it
    appended an interval (a [PeakEvent]). *)
Record ScanEvent : Type := {
  scanned_index : nat;
  scanned_sample : Z;
  peak_event : bool
}.

(** The condition under which the loop body declares a peak at [i]. *)
Definition fires (ecg_data : list Z) (d : Detector) (i : nat) : bool :=
  r_peak_detectable d
  && (nth i ecg_data 0 >? r_peak_upper_threshold)
  && (nth i ecg_data 0 >? nth (i + 1) ecg_data 0).

(** The loop body appends to [r_peak_intervals] at [i]. *)
Definition emits (ecg_data : list Z) (d : Detector) (i : nat) : bool :=
  (length (r_peak_intervals d)
   <? length (r_peak_intervals (detect_step ecg_data d i)))%nat.

Fixpoint scan_trace (ecg_data : list Z) (d : Detector) (indices : list nat)
  : list ScanEvent :=
  match indices with
  | [] => []
  | i :: rest =>
      {| scanned_index := i; scanned_sample := nth i ecg_data 0;
         peak_event := emits ecg_data d i |}
      :: scan_trace ecg_data (detect_step ecg_data d i) rest
  end.

(** The events of one call of [detect_r_peaks]. *)
Definition invocation_trace (w : EcgWindow) : list ScanEvent :=
  scan_trace (ecg_data w) (detector w) (scan_range w).

(** The reader appends a batch of samples between two ticks. *)
Definition arrive (batch : list Z) (w : EcgWindow) : EcgWindow :=
  fold_left (fun w value => read_serial (Sample value) w) batch w.

(** Batches of samples, each followed by one [process_fresh_data]. *)
Fixpoint feed (batches : list (list Z)) (w : EcgWindow) : EcgWindow :=
  match batches with
  | [] => w
  | batch :: rest => feed rest (process_fresh_data (arrive batch w))
  end.

Fixpoint feed_trace (batches : list (list Z)) (w : EcgWindow) : list ScanEvent :=
  match batches with
  | [] => []
  | batch :: rest =>
      invocation_trace (arrive batch w)
      ++ feed_trace rest (process_fresh_data (arrive batch w))
  end.

(** [process_fresh_data] with the reader thread at work between its reads of
    the shared buffer: [a1] arrives between the two evaluations of
    [self.ecg_data[self.last_processed_index:]], [a2] before the scan and
    [a3] before the scan position is stored. *)
Definition process_fresh_data_interleaved (a1 a2 a3 : list Z) (w : EcgWindow)
  : EcgWindow :=
  let shift := length (skipn (last_processed_index w) (ecg_data w)) in
  let w := arrive a1 w in
  let fresh := skipn (last_processed_index w) (ecg_data w) in
  let w := set_ydata (skipn shift (ydata w) ++ fresh) w in
  let w := arrive a2 w in
  let w := detect_r_peaks w in
  let w := arrive a3 w in
  set_last_processed_index (length (ecg_data w)) w.

(** The loop body of [detect_r_peaks] on the sample it reads and the next. *)
Definition detect_values (sample next : Z) (d : Detector) : Detector :=
  let d := set_counter (r_peak_interval_counter d + 1) d in
  if r_peak_detectable d
     && (sample >? r_peak_upper_threshold)
     && (sample >? next)
  then
    let d := append_interval (r_peak_interval_counter d * sampling_time) d in
    let d := set_counter 0 d in
    set_detectable false d
  else if sample <? r_peak_lower_threshold
  then set_detectable true d
  else d.

(** One scan of a whole buffer, by recursion on the buffer: every sample
    but the last, each with its successor. *)
Fixpoint scan_list (samples : list Z) (d : Detector) : Detector :=
  match samples with
  | sample :: ((next :: _) as rest) => scan_list rest (detect_values sample next d)
  | _ => d
  end.

(** A recording of twenty seconds with a beat every half second: forty
    times one sample of 3000 and 249 samples of 1000. *)
Definition beats : list Z := concat (repeat (3000 :: repeat 1000 249) 40).

(** The armed flag a trace leaves, from the events alone. *)
Definition armed_step (armed : bool) (e : ScanEvent) : bool :=
  if peak_event e then false
  else if scanned_sample e <? r_peak_lower_threshold then true
  else armed.

Definition armed_after (armed : bool) (t : list ScanEvent) : bool :=
  fold_left armed_step t armed.

(** Every peak of the trace is declared while armed. *)
Fixpoint consistent (armed : bool) (t : list ScanEvent) : Prop :=
  match t with
  | [] => True
  | e :: rest =>
      (peak_event e = true -> armed = true) /\ consistent (armed_step armed e) rest
  end.


(** A measurement is running: the reader appends and the timer ticks. *)
Definition Recording (w : EcgWindow) : Prop :=
  is_measurement_in_progress w = true /\ timer_active w = true.




(** A window just started on an open port. *)
Definition started : EcgWindow := start_button_action true init.

(** The detector of a window just reset. *)
Definition reset_detector : Detector :=
  {| r_peak_detectable := true; r_peak_intervals := [];
     r_peak_interval_counter := 0 |}.

(** Metrics are recomputed on this call of
    [calculate_and_update_label_values]. *)
Definition metrics_due (w : EcgWindow) : bool :=
  negb (is_measurement_in_progress w) || is_health_data_ready_for_calculation w.

(** The [try] block of [calculate_and_update_label_values] raises. *)
Definition metrics_fail (w : EcgWindow) : bool :=
  match get_rr_interval w with
  | Raise _ => true
  | Ok _ => match get_bpm w with
            | Raise _ => true
            | Ok _ => false
            end
  end.

(** The beats per minute of the specification,
    [round_down((count + 1) / elapsed * 60)], in exact arithmetic. *)
Definition bpm_exact (count elapsed : Z) : Z :=
  (count + 1) * 60 / elapsed.


(** [lo], [lo + 1], ... ([n] of them). *)
Fixpoint zrange (lo : Z) (n : nat) : list Z :=
  match n with
  | O => []
  | S k => lo :: zrange (lo + 1) k
  end.

(** A window whose detector has recorded [intervals] over [n] samples. *)
Definition recorded (intervals : list Z) (n : nat) : EcgWindow :=
  set_detector (set_intervals intervals (detector started))
    (set_ecg_data (repeat 0 n) started).

(** What the label computation and the port leave alone: the buffer, the
    window, the scan position, the detector, and what the canvas, the stack
    and the slider show. *)
Definition data_view (w : EcgWindow)
  : list Z * list Z * nat * float * Detector
    * (option (list Z) * StackCode * bool) :=
  (ecg_data w, ydata w, last_processed_index w, slider_jump_value w, detector w,
   (plot (widgets w), stack (widgets w), slider_shown (widgets w))).

(** The labels and the message boxes of [w] are those of a window freshly
    reset, with [shown] already shown, after one computation of the metrics:
    both labels set, or the error reported once and the labels that were not
    reached still blank. *)
Definition metrics_computed_once (shown : list MessageBox) (w : EcgWindow) : Prop :=
  last_time_health_data_calculated w = get_elapsed_time w
  /\ match get_rr_interval w with
     | Raise _ =>
         rr_interval_label (widgets w) = None
         /\ bpm_label (widgets w) = None
         /\ message_boxes (widgets w) = shown ++ [Signal_processing_error]
     | Ok rr =>
         rr_interval_label (widgets w) = Some rr
         /\ match get_bpm w with
            | Raise _ =>
                bpm_label (widgets w) = None
                /\ message_boxes (widgets w) = shown ++ [Signal_processing_error]
            | Ok bpm =>
                bpm_label (widgets w) = Some bpm
                /\ message_boxes (widgets w) = shown
            end
     end.

(** The elapsed time of a buffer of [n] samples is [floor(n / 500)]. *)
Definition elapsed_is_floor (n : Z) : bool :=
  int_of_float (div_Z_float n sampling_rate) =? n / 500.

(** ** The rest of the window: the time axis, the reader's lines, the events *)

(** [calculate_and_update_x_axis_values]: the labels it gives the five ticks
    of the time axis, in seconds. *)
Definition calculate_and_update_x_axis_values (max_displayed_data : Z) : list Z :=
  [ int_of_float (div_Z_float ((max_displayed_data - 2000) * sampling_time) 1000);
    int_of_float (div_Z_float ((max_displayed_data - 1500) * sampling_time) 1000);
    int_of_float (div_Z_float ((max_displayed_data - 1000) * sampling_time) 1000);
    int_of_float (div_Z_float ((max_displayed_data - 500) * sampling_time) 1000);
    int_of_float (div_Z_float (max_displayed_data * sampling_time) 1000) ].

(** The labels [slider_action] asks for: it passes the end of the window
    plus one. *)
Definition slider_axis_labels (value : Z) (w : EcgWindow) : list Z :=
  calculate_and_update_x_axis_values (snd (slider_window value w) + 1).

(** The reader loop over a sequence of readings. *)
Definition ingest (readings : list Reading) (w : EcgWindow) : EcgWindow :=
  fold_left (fun w r => read_serial r w) readings w.

(** The samples among the readings, in order. *)
Definition samples_of (readings : list Reading) : list Z :=
  flat_map (fun r => match r with Sample value => [value] | _ => [] end) readings.

(** What can happen to the window.  The widgets decide which handler runs:
    the start and load buttons are on the home page of the stack
    ([init_home_ui]), the universal button and the slider on the graph page
    ([init_graph_ui]), the universal button is connected to the stop or the
    back action by [switch_universal_button], a hidden slider cannot be
    moved and stays within its minimum and maximum, and the timer calls
    [tick_method] only while it is active. *)
Inductive Event : Type :=
| ClickStart (connectable : bool)
| ClickLoad (selected : option FileContent)
| ClickUniversal
| MoveSlider (value : Z)
| TimerTick
| SerialLine (r : Reading).

Definition on_home (w : EcgWindow) : bool :=
  match stack (widgets w) with HOME => true | GRAPH => false end.

Definition handle (e : Event) (w : EcgWindow) : result EcgWindow :=
  match e with
  | ClickStart connectable =>
      if on_home w then Ok (start_button_action connectable w) else Ok w
  | ClickLoad selected =>
      if on_home w then load_button_action selected w else Ok w
  | ClickUniversal =>
      if on_home w then Ok w
      else match universal_button (widgets w) with
           | STOP => Ok (stop_button_action w)
           | BACK => Ok (back_button_action w)
           end
  | MoveSlider value =>
      if negb (on_home w) && slider_shown (widgets w)
         && (slider_min_value <=? value) && (value <=? slider_max_value)
      then Ok (slider_action value w) else Ok w
  | TimerTick =>
      if timer_active w then Ok (tick_method w) else Ok w
  | SerialLine r => Ok (read_serial r w)
  end.

Fixpoint run (events : list Event) (w : EcgWindow) : result EcgWindow :=
  match events with
  | [] => Ok w
  | e :: rest => w' <- handle e w ;; run rest w'
  end.

(** The intervals are whole positive numbers of sampling times and the
    counter is not negative. *)
Definition detector_ok (d : Detector) : Prop :=
  0 <= r_peak_interval_counter d
  /\ Forall (fun v => 0 < v /\ v mod sampling_time = 0) (r_peak_intervals d).

(** The time the detector has accounted for: the intervals recorded and the
    samples counted since the last of them. *)
Definition accounted_time (d : Detector) : Z :=
  sum (r_peak_intervals d) + r_peak_interval_counter d * sampling_time.

(** What holds of every window the events can produce. *)
Definition consistent_window (w : EcgWindow) : Prop :=
  timer_active w = is_measurement_in_progress w
  /\ (is_measurement_in_progress w = true ->
      stack (widgets w) = GRAPH /\ universal_button (widgets w) = STOP
      /\ ser w = true)
  /\ (stack (widgets w) = HOME -> universal_button (widgets w) = STOP)
  /\ (last_processed_index w <= length (ecg_data w))%nat
  /\ detector_ok (detector w).

Arguments get_elapsed_time : simpl never.
Arguments get_rr_interval : simpl never.
Arguments get_bpm : simpl never.

(** * Properties *)

(** Closed statements about concrete windows are settled by evaluation. *)
Ltac by_evaluation :=
  cbv zeta;
  repeat match goal with |- _ /\ _ => split end;
  vm_compute;
  first [ reflexivity | discriminate | repeat split; reflexivity ].

(** ** Constants *)

Lemma sampling_rate_eq : sampling_rate = 500.
Proof. vm_compute. reflexivity. Qed.

Lemma pow_10_m3_nearest : pow_10_m3 = div_Z_float 1 1000.
Proof. vm_compute. reflexivity. Qed.

Lemma display_count_eq : display_count = 2000%nat.
Proof. reflexivity. Qed.

(** ** The loop body of the detector *)

Section DetectStep.

Variable ecg : list Z.

Lemma emits_fires (d : Detector) (i : nat) : emits ecg d i = fires ecg d i.
Proof.
  unfold emits, detect_step, fires; cbn [set_counter r_peak_detectable].
  destruct (r_peak_detectable d && _ && _); cbn.
  - rewrite length_app; cbn. apply Nat.ltb_lt. lia.
  - destruct (nth i ecg 0 <? r_peak_lower_threshold); cbn;
      apply Nat.ltb_irrefl.
Qed.

Lemma emits_armed (d : Detector) (i : nat) :
  emits ecg d i = true -> r_peak_detectable d = true.
Proof.
  rewrite emits_fires; unfold fires.
  destruct (r_peak_detectable d); [reflexivity | discriminate].
Qed.

Lemma emits_above_upper (d : Detector) (i : nat) :
  emits ecg d i = true ->
  r_peak_upper_threshold < nth i ecg 0 /\ nth (i + 1) ecg 0 < nth i ecg 0.
Proof.
  rewrite emits_fires; unfold fires.
  rewrite !andb_true_iff, !Z.gtb_lt. tauto.
Qed.

(** An emission appends exactly one interval, the count of samples scanned
    since the last one times the sampling time, and disarms. *)
Lemma detect_step_emits (d : Detector) (i : nat) :
  emits ecg d i = true ->
  detect_step ecg d i =
    {| r_peak_detectable := false;
       r_peak_intervals :=
         r_peak_intervals d ++ [(r_peak_interval_counter d + 1) * sampling_time];
       r_peak_interval_counter := 0 |}.
Proof.
  rewrite emits_fires; unfold fires, detect_step; cbn [set_counter r_peak_detectable].
  intros ->. reflexivity.
Qed.

Lemma detect_step_silent (d : Detector) (i : nat) :
  emits ecg d i = false ->
  detect_step ecg d i =
    {| r_peak_detectable :=
         (nth i ecg 0 <? r_peak_lower_threshold) || r_peak_detectable d;
       r_peak_intervals := r_peak_intervals d;
       r_peak_interval_counter := r_peak_interval_counter d + 1 |}.
Proof.
  rewrite emits_fires; unfold fires, detect_step; cbn [set_counter r_peak_detectable].
  intros ->.
  destruct (nth i ecg 0 <? r_peak_lower_threshold); destruct d; reflexivity.
Qed.

Lemma detect_step_armed (d : Detector) (i : nat) :
  r_peak_detectable (detect_step ecg d i)
  = armed_step (r_peak_detectable d)
      {| scanned_index := i; scanned_sample := nth i ecg 0;
         peak_event := emits ecg d i |}.
Proof.
  unfold armed_step; cbn [peak_event scanned_sample].
  destruct (emits ecg d i) eqn:E.
  - rewrite (detect_step_emits _ _ E). reflexivity.
  - rewrite (detect_step_silent _ _ E); cbn.
    destruct (nth i ecg 0 <? r_peak_lower_threshold); reflexivity.
Qed.

Lemma scan_trace_armed (l : list nat) (d : Detector) :
  armed_after (r_peak_detectable d) (scan_trace ecg d l)
  = r_peak_detectable (fold_left (detect_step ecg) l d).
Proof.
  revert d; induction l as [|i l IH]; intros d; cbn; [reflexivity|].
  unfold armed_after in *; cbn.
  rewrite <- detect_step_armed. apply IH.
Qed.

Lemma scan_trace_consistent (l : list nat) (d : Detector) :
  consistent (r_peak_detectable d) (scan_trace ecg d l).
Proof.
  revert d; induction l as [|i l IH]; intros d; cbn; [exact I|].
  split; [apply emits_armed|].
  rewrite <- detect_step_armed. apply IH.
Qed.


Lemma scan_trace_indices (l : list nat) (d : Detector) :
  map scanned_index (scan_trace ecg d l) = l.
Proof.
  revert d; induction l as [|i l IH]; intros d; cbn; [reflexivity|].
  now rewrite IH.
Qed.

End DetectStep.

(** ** Traces *)

Lemma armed_after_app (a : bool) (t1 t2 : list ScanEvent) :
  armed_after a (t1 ++ t2) = armed_after (armed_after a t1) t2.
Proof. apply fold_left_app. Qed.

Lemma consistent_app (t1 t2 : list ScanEvent) (a : bool) :
  consistent a (t1 ++ t2) <-> consistent a t1 /\ consistent (armed_after a t1) t2.
Proof.
  revert a; induction t1 as [|e t1 IH]; intros a; cbn.
  - tauto.
  - rewrite IH. unfold armed_after; cbn. tauto.
Qed.

(** While disarmed, a peak is preceded by a sample below the lower
    threshold. *)
Lemma disarmed_needs_low (t2 : list ScanEvent) (e2 : ScanEvent) (t3 : list ScanEvent) :
  consistent false (t2 ++ e2 :: t3) ->
  peak_event e2 = true ->
  exists e, In e t2 /\ scanned_sample e < r_peak_lower_threshold.
Proof.
  induction t2 as [|e t2 IH]; cbn; intros [Hp Hc] He2.
  - specialize (Hp He2). discriminate.
  - unfold armed_step in Hc.
    destruct (peak_event e) eqn:Pe; [specialize (Hp eq_refl); discriminate|].
    destruct (scanned_sample e <? r_peak_lower_threshold) eqn:Lo.
    + exists e. split; [now left | now apply Z.ltb_lt].
    + destruct (IH Hc He2) as (e' & Hin & Hlow).
      exists e'. split; [now right | exact Hlow].
Qed.

Lemma consistent_hysteresis (a : bool) (t1 : list ScanEvent) (e1 : ScanEvent)
  (t2 : list ScanEvent) (e2 : ScanEvent) (t3 : list ScanEvent) :
  consistent a (t1 ++ e1 :: t2 ++ e2 :: t3) ->
  peak_event e1 = true -> peak_event e2 = true ->
  exists e, In e t2 /\ scanned_sample e < r_peak_lower_threshold.
Proof.
  intros Hc He1 He2.
  apply consistent_app in Hc. destruct Hc as [_ Hc].
  cbn in Hc. destruct Hc as [_ Hc].
  unfold armed_step in Hc. rewrite He1 in Hc.
  exact (disarmed_needs_low _ _ _ Hc He2).
Qed.

(** ** Arrivals and invocations *)

Lemma read_serial_detector (r : Reading) (w : EcgWindow) :
  detector (read_serial r w) = detector w.
Proof.
  unfold read_serial.
  destruct (is_measurement_in_progress w && ser w); [destruct r|]; reflexivity.
Qed.

Lemma arrive_detector (batch : list Z) (w : EcgWindow) :
  detector (arrive batch w) = detector w.
Proof.
  revert w; induction batch as [|v batch IH]; intros w; cbn; [reflexivity|].
  unfold arrive in *; cbn. rewrite IH. apply read_serial_detector.
Qed.

Lemma arrive_accepted (batch : list Z) (w : EcgWindow) :
  is_measurement_in_progress w = true -> ser w = true ->
  arrive batch w = set_ecg_data (ecg_data w ++ batch) w.
Proof.
  revert w; induction batch as [|v batch IH]; intros w Hp Hs.
  - cbn. rewrite app_nil_r. destruct w; reflexivity.
  - unfold arrive in *; cbn [fold_left].
    rewrite IH; unfold read_serial; rewrite Hp, Hs; cbn; auto.
    now rewrite <- app_assoc.
Qed.

Lemma arrive_refused (batch : list Z) (w : EcgWindow) :
  is_measurement_in_progress w && ser w = false -> arrive batch w = w.
Proof.
  intros H; induction batch as [|v batch IH]; [reflexivity|].
  unfold arrive in *; cbn [fold_left].
  unfold read_serial at 2. rewrite H. exact IH.
Qed.

Lemma process_fresh_data_detector (w : EcgWindow) :
  detector (process_fresh_data w)
  = fold_left (detect_step (ecg_data w)) (scan_range w) (detector w).
Proof. reflexivity. Qed.

Lemma invocation_trace_consistent (w : EcgWindow) :
  consistent (r_peak_detectable (detector w)) (invocation_trace w).
Proof. apply scan_trace_consistent. Qed.

Lemma invocation_trace_armed (w : EcgWindow) :
  armed_after (r_peak_detectable (detector w)) (invocation_trace w)
  = r_peak_detectable (detector (process_fresh_data w)).
Proof. unfold invocation_trace. now rewrite scan_trace_armed. Qed.

Lemma feed_trace_consistent (batches : list (list Z)) (w : EcgWindow) :
  consistent (r_peak_detectable (detector w)) (feed_trace batches w).
Proof.
  revert w; induction batches as [|batch rest IH]; intros w; cbn; [exact I|].
  apply consistent_app. split.
  - rewrite <- (arrive_detector batch w). apply invocation_trace_consistent.
  - rewrite <- (arrive_detector batch w) at 1.
    rewrite invocation_trace_armed. apply IH.
Qed.


(** C1. Hysteresis debounce: in the events of any sequence of batches fed to
    the detector, between two peak events there is a scanned sample strictly
    below the lower threshold (2000); the detector, disarmed by the first
    peak, cannot declare the second before such a sample re-arms it. *)
Theorem hysteresis_debounce (w : EcgWindow) (batches : list (list Z))
  (t1 : list ScanEvent) (e1 : ScanEvent) (t2 : list ScanEvent)
  (e2 : ScanEvent) (t3 : list ScanEvent) :
  feed_trace batches w = t1 ++ e1 :: t2 ++ e2 :: t3 ->
  peak_event e1 = true ->
  peak_event e2 = true ->
  exists e, In e t2 /\ scanned_sample e < r_peak_lower_threshold.
Proof.
  intros Ht. pose proof (feed_trace_consistent batches w) as Hc.
  rewrite Ht in Hc. exact (consistent_hysteresis _ _ _ _ _ _ Hc).
Qed.

Lemma hysteresis_debounce_witness :
  exists e,
    In e [{| scanned_index := 2; scanned_sample := 1000; peak_event := false |}]
    /\ scanned_sample e < r_peak_lower_threshold.
Proof.
  apply (hysteresis_debounce started
           [[1000; 3000; 1000; 1000]; [3000; 1000; 1000]]
           [{| scanned_index := 0; scanned_sample := 1000; peak_event := false |}]
           {| scanned_index := 1; scanned_sample := 3000; peak_event := true |}
           [{| scanned_index := 2; scanned_sample := 1000; peak_event := false |}]
           {| scanned_index := 4; scanned_sample := 3000; peak_event := true |}
           [{| scanned_index := 5; scanned_sample := 1000; peak_event := false |}]);
    reflexivity.
Defined.

(** ** The scan range of one invocation *)

Lemma scan_range_spec (w : EcgWindow) (i : nat) :
  In i (scan_range w)
  <-> (last_processed_index w <= i /\ i + 1 < length (ecg_data w))%nat.
Proof.
  unfold scan_range, range. rewrite in_seq. lia.
Qed.

Lemma invocation_trace_indices (w : EcgWindow) :
  map scanned_index (invocation_trace w) = scan_range w.
Proof. apply scan_trace_indices. Qed.

Lemma process_fresh_data_index (w : EcgWindow) :
  last_processed_index (process_fresh_data w) = length (ecg_data w).
Proof. reflexivity. Qed.

Lemma process_fresh_data_ecg_data (w : EcgWindow) :
  ecg_data (process_fresh_data w) = ecg_data w.
Proof. reflexivity. Qed.

Lemma read_serial_index (r : Reading) (w : EcgWindow) :
  last_processed_index (read_serial r w) = last_processed_index w.
Proof.
  unfold read_serial.
  destruct (is_measurement_in_progress w && ser w); [destruct r|]; reflexivity.
Qed.

Lemma arrive_index (batch : list Z) (w : EcgWindow) :
  last_processed_index (arrive batch w) = last_processed_index w.
Proof.
  revert w; induction batch as [|v batch IH]; intros w; [reflexivity|].
  unfold arrive in *; cbn [fold_left]. rewrite IH. apply read_serial_index.
Qed.

(** The sample that was last when [process_fresh_data] ran is in the range
    of neither that invocation nor the next. *)
Lemma last_sample_never_scanned (w : EcgWindow) (batch : list Z) (i : nat) :
  (i + 1 = length (ecg_data w))%nat ->
  ~ In i (scan_range w)
  /\ ~ In i (scan_range (arrive batch (process_fresh_data w))).
Proof.
  intros Hi. rewrite !scan_range_spec, arrive_index, process_fresh_data_index. lia.
Qed.

Lemma last_sample_never_scanned_witness :
  ~ In 1%nat (scan_range (arrive [1000; 3000] started))
  /\ ~ In 1%nat
       (scan_range
          (arrive [1000; 1000] (process_fresh_data (arrive [1000; 3000] started)))).
Proof.
  apply (last_sample_never_scanned (arrive [1000; 3000] started) [1000; 1000] 1).
  reflexivity.
Defined.

(** C2. The incremental scan at work on the buffer [1000, 3000] and then
    [1000, 3000, 1000, 1000]: the first invocation visits index 0 only and
    leaves [last_processed_index] at 2, the length, not at 1; the second
    visits index 2 only, so the peak at index 1 is never examined and no
    interval is recorded, where one scan of the whole buffer records one. *)
Theorem incremental_scan_skips_last_sample :
  let w1 := feed [[1000; 3000]] started in
  let w2 := feed [[1000; 3000]; [1000; 1000]] started in
  scan_range (arrive [1000; 3000] started) = [0%nat]
  /\ last_processed_index w1 = 2%nat
  /\ length (ecg_data w1) = 2%nat
  /\ scan_range (arrive [1000; 1000] w1) = [2%nat]
  /\ ecg_data w2 = [1000; 3000; 1000; 1000]
  /\ r_peak_intervals (detector w2) = []
  /\ r_peak_intervals
       (detector (detect_r_peaks (arrive [1000; 3000; 1000; 1000] started))) = [4].
Proof. by_evaluation. Qed.

(** ** Mean RR interval *)

Lemma get_rr_interval_empty (w : EcgWindow) :
  get_rr_interval w = Raise StatisticsError <-> r_peak_intervals (detector w) = [].
Proof.
  unfold get_rr_interval, fmean.
  destruct (r_peak_intervals (detector w)); cbn; split; intros H;
    try reflexivity; discriminate.
Qed.

Lemma get_rr_interval_raises (w : EcgWindow) (e : exn) :
  get_rr_interval w = Raise e -> e = StatisticsError.
Proof.
  unfold get_rr_interval, fmean.
  destruct (r_peak_intervals (detector w)); cbn; intros H; inversion H; reflexivity.
Qed.



(** The integer [round_half_even] picks is a nearest one. *)
Lemma round_half_even_nearest (num den : Z) :
  0 < den ->
  2 * Z.abs (num - round_half_even num den * den) <= den.
Proof.
  intros Hd. unfold round_half_even.
  pose proof (Z.div_mod num den ltac:(lia)) as E.
  pose proof (Z.mod_pos_bound num den Hd) as B.
  destruct (2 * (num mod den) ?= den) eqn:C.
  - apply Z.compare_eq in C. destruct (Z.even (num / den)); nia.
  - rewrite Z.compare_lt_iff in C. nia.
  - rewrite Z.compare_gt_iff in C. nia.
Qed.

(** ** Beats per minute *)

Lemma recorded_intervals (intervals : list Z) (n : nat) :
  r_peak_intervals (detector (recorded intervals n)) = intervals.
Proof. reflexivity. Qed.

Lemma recorded_ecg_data (intervals : list Z) (n : nat) :
  length (ecg_data (recorded intervals n)) = n.
Proof. unfold recorded; cbn. apply repeat_length. Qed.

(** With no whole second elapsed the division by the elapsed time raises. *)
Lemma get_bpm_zero_elapsed (w : EcgWindow) :
  get_elapsed_time w = 0 -> get_bpm w = Raise ZeroDivisionError.
Proof. unfold get_bpm, truediv. intros ->. reflexivity. Qed.

Lemma get_bpm_zero_elapsed_witness :
  get_bpm (recorded [800] 499) = Raise ZeroDivisionError.
Proof.
  apply (get_bpm_zero_elapsed (recorded [800] 499)). vm_compute. reflexivity.
Defined.

Lemma get_bpm_raises (w : EcgWindow) (e : exn) :
  get_bpm w = Raise e -> e = ZeroDivisionError /\ get_elapsed_time w = 0.
Proof.
  unfold get_bpm, truediv.
  destruct (get_elapsed_time w =? 0) eqn:E; cbn; intros H; inversion H.
  split; [reflexivity | now apply Z.eqb_eq].
Qed.

Lemma get_bpm_positive_elapsed (w : EcgWindow) :
  get_elapsed_time w <> 0 ->
  get_bpm w =
    Ok (int_of_float
          (div_Z_float (Z.of_nat (length (r_peak_intervals (detector w))) + 1)
             (get_elapsed_time w) * float_of_Z 60)%float).
Proof.
  unfold get_bpm, truediv. intros H.
  destruct (get_elapsed_time w =? 0) eqn:E; [apply Z.eqb_eq in E; contradiction|].
  reflexivity.
Qed.

(** [get_bpm] reads nothing but the number of intervals and the number of
    samples. *)
Lemma get_bpm_counts (w1 w2 : EcgWindow) :
  length (r_peak_intervals (detector w1)) = length (r_peak_intervals (detector w2)) ->
  length (ecg_data w1) = length (ecg_data w2) ->
  get_bpm w1 = get_bpm w2.
Proof.
  unfold get_bpm, get_elapsed_time. intros -> ->. reflexivity.
Qed.

(** Nine intervals after ten seconds: 60 beats per minute. *)
Lemma get_bpm_fixture :
  get_elapsed_time (recorded (repeat 1000 9) 5000) = 10
  /\ get_bpm (recorded (repeat 1000 9) 5000) = Ok 60
  /\ bpm_exact 9 10 = 60.
Proof. by_evaluation. Qed.

(** Forty intervals after twenty seconds: [(40 + 1) / 20] is the double
    just below 2.05, its product with 60 is the double just below 123, and
    [int] truncates it to 122, where the exact quotient is 123. *)
Lemma get_bpm_forty_in_twenty :
  let w := recorded (repeat 500 40) 10000 in
  length (r_peak_intervals (detector w)) = 40%nat
  /\ get_elapsed_time w = 20
  /\ get_bpm w = Ok 122
  /\ bpm_exact 40 20 = 123.
Proof. by_evaluation. Qed.

(** ** The label computation *)

Lemma get_elapsed_time_ext (w1 w2 : EcgWindow) :
  ecg_data w1 = ecg_data w2 -> get_elapsed_time w1 = get_elapsed_time w2.
Proof. unfold get_elapsed_time. now intros ->. Qed.

Lemma get_rr_interval_ext (w1 w2 : EcgWindow) :
  detector w1 = detector w2 -> get_rr_interval w1 = get_rr_interval w2.
Proof. unfold get_rr_interval. now intros ->. Qed.

Lemma get_bpm_ext (w1 w2 : EcgWindow) :
  detector w1 = detector w2 -> ecg_data w1 = ecg_data w2 ->
  get_bpm w1 = get_bpm w2.
Proof.
  unfold get_bpm. intros -> H. now rewrite (get_elapsed_time_ext _ _ H).
Qed.


Lemma data_view_fields (a b : EcgWindow) :
  data_view a = data_view b ->
  ecg_data a = ecg_data b
  /\ ydata a = ydata b
  /\ last_processed_index a = last_processed_index b
  /\ slider_jump_value a = slider_jump_value b
  /\ detector a = detector b
  /\ plot (widgets a) = plot (widgets b)
  /\ stack (widgets a) = stack (widgets b)
  /\ slider_shown (widgets a) = slider_shown (widgets b).
Proof.
  unfold data_view. intros H. injection H as H1 H2 H3 H4 H5 H6 H7 H8.
  repeat split; assumption.
Qed.

Lemma write_serial_view (code : SerialCode) (w : EcgWindow) :
  data_view (write_serial code w) = data_view w.
Proof. unfold write_serial. destruct (ser w); reflexivity. Qed.


Lemma stop_measurement_stops (w : EcgWindow) :
  is_measurement_in_progress (stop_measurement w) = false
  /\ timer_active (stop_measurement w) = false
  /\ universal_button (widgets (stop_measurement w)) = BACK.
Proof.
  unfold stop_measurement, write_serial; cbn.
  destruct (ser w); repeat split; reflexivity.
Qed.

Lemma signal_processing_error_view (w : EcgWindow) :
  data_view (signal_processing_error w) = data_view w.
Proof.
  unfold signal_processing_error, stop_measurement, write_serial; cbn.
  destruct (ser w); reflexivity.
Qed.

Lemma signal_processing_error_labels (w : EcgWindow) :
  rr_interval_label (widgets (signal_processing_error w))
  = rr_interval_label (widgets w)
  /\ bpm_label (widgets (signal_processing_error w)) = bpm_label (widgets w)
  /\ last_time_health_data_calculated (signal_processing_error w)
     = last_time_health_data_calculated w.
Proof.
  unfold signal_processing_error, stop_measurement, write_serial; cbn.
  destruct (ser w); repeat split; reflexivity.
Qed.

Lemma signal_processing_error_stops (w : EcgWindow) :
  is_measurement_in_progress (signal_processing_error w) = false
  /\ timer_active (signal_processing_error w) = false
  /\ universal_button (widgets (signal_processing_error w)) = BACK
  /\ message_boxes (widgets (signal_processing_error w))
     = message_boxes (widgets w) ++ [Signal_processing_error].
Proof.
  unfold signal_processing_error, stop_measurement, write_serial; cbn.
  destruct (ser w); repeat split; reflexivity.
Qed.

(** The label computation in terms of [metrics_due] and [metrics_fail]:
    nothing but the countdown when metrics are not due, the error path when
    they are due and fail, the two labels otherwise. *)
Lemma calculate_and_update_label_values_cases (w : EcgWindow) :
  let w1 :=
    on_widgets
      (set_countdown_label
         (if is_measurement_in_progress w
          then Some (measurement_duration - get_elapsed_time w) else None)) w in
  let w2 := set_last_time_health_data_calculated (get_elapsed_time w) w1 in
  calculate_and_update_label_values w =
    if metrics_due w then
      match get_rr_interval w with
      | Raise _ => signal_processing_error w2
      | Ok rr =>
          match get_bpm w with
          | Raise _ =>
              signal_processing_error
                (on_widgets (set_rr_interval_label (Some rr)) w2)
          | Ok bpm =>
              on_widgets (set_bpm_label (Some bpm))
                (on_widgets (set_rr_interval_label (Some rr)) w2)
          end
      end
    else w1.
Proof.
  cbv zeta.
  unfold calculate_and_update_label_values, metrics_due.
  set (w1 := if is_measurement_in_progress w then _ else _).
  assert (E1 : w1 = on_widgets
      (set_countdown_label
         (if is_measurement_in_progress w
          then Some (measurement_duration - get_elapsed_time w) else None)) w)
    by (subst w1; destruct (is_measurement_in_progress w); reflexivity).
  rewrite <- E1.
  assert (Hp : is_measurement_in_progress w1 = is_measurement_in_progress w)
    by (rewrite E1; reflexivity).
  assert (Hr : is_health_data_ready_for_calculation w1
               = is_health_data_ready_for_calculation w)
    by (rewrite E1; reflexivity).
  assert (Hd : detector w1 = detector w) by (rewrite E1; reflexivity).
  assert (He : ecg_data w1 = ecg_data w) by (rewrite E1; reflexivity).
  rewrite Hp, Hr.
  destruct (negb (is_measurement_in_progress w) || _); [|reflexivity].
  match goal with
  | |- context [get_rr_interval ?x] => rewrite (get_rr_interval_ext x w Hd)
  end.
  destruct (get_rr_interval w); [|reflexivity].
  match goal with
  | |- context [get_bpm ?x] => rewrite (get_bpm_ext x w Hd He)
  end.
  reflexivity.
Qed.

Lemma calculate_and_update_label_values_view (w : EcgWindow) :
  data_view (calculate_and_update_label_values w) = data_view w.
Proof.
  rewrite calculate_and_update_label_values_cases; cbv zeta.
  destruct (metrics_due w); [|reflexivity].
  destruct (get_rr_interval w); [destruct (get_bpm w)|];
    rewrite ?signal_processing_error_view; reflexivity.
Qed.

(** A tick's label computation ends the session exactly when metrics are
    due and fail. *)
Lemma calculate_and_update_label_values_in_progress (w : EcgWindow) :
  is_measurement_in_progress (calculate_and_update_label_values w)
  = is_measurement_in_progress w && negb (metrics_due w && metrics_fail w)
  /\ timer_active (calculate_and_update_label_values w)
     = timer_active w && negb (metrics_due w && metrics_fail w).
Proof.
  rewrite calculate_and_update_label_values_cases; cbv zeta.
  unfold metrics_fail.
  destruct (metrics_due w); cbn [andb negb];
    [|rewrite !andb_true_r; split; reflexivity].
  destruct (get_rr_interval w); [destruct (get_bpm w)|]; cbn [negb];
    rewrite ?andb_true_r, ?andb_false_r;
    try (split; reflexivity);
    match goal with
    | |- context [signal_processing_error ?x] =>
        destruct (signal_processing_error_stops x) as (-> & -> & _)
    end; split; reflexivity.
Qed.

(** ** The live window *)

Lemma reset_ydata_padding (w : EcgWindow) :
  ydata (reset_ydata w)
  = min_ydata_value :: repeat max_ydata_value (display_count - 1).
Proof. reflexivity. Qed.

Lemma reset_ydata_length (w : EcgWindow) :
  length (ydata (reset_ydata w)) = display_count.
Proof.
  unfold reset_ydata; cbn [ydata set_ydata].
  rewrite length_app, repeat_length. reflexivity.
Qed.

(** Before any sample has arrived the window is the padding. *)
Lemma started_ydata :
  ydata started = min_ydata_value :: repeat max_ydata_value (display_count - 1)
  /\ length (ydata started) = display_count
  /\ ecg_data started = [].
Proof. repeat split; reflexivity. Qed.

Lemma process_fresh_data_ydata (w : EcgWindow) :
  ydata (process_fresh_data w)
  = skipn (length (skipn (last_processed_index w) (ecg_data w))) (ydata w)
    ++ skipn (last_processed_index w) (ecg_data w).
Proof. reflexivity. Qed.

(** The shift-and-append keeps the length of the window when the fresh
    samples are no more than the window holds, and makes it as long as the
    fresh samples otherwise. *)
Lemma process_fresh_data_ydata_length (w : EcgWindow) :
  length (ydata (process_fresh_data w))
  = Nat.max (length (ydata w))
      (length (ecg_data w) - last_processed_index w).
Proof.
  rewrite process_fresh_data_ydata, length_app, !length_skipn. lia.
Qed.

Lemma tick_method_ydata_unfinished (w : EcgWindow) :
  is_measurement_finished w = false ->
  ydata (tick_method w) = ydata (process_fresh_data w).
Proof.
  unfold tick_method. intros ->.
  exact (proj1 (proj2 (data_view_fields _ _
    (calculate_and_update_label_values_view (update_plot (process_fresh_data w)))))).
Qed.

(** C5. The live window after one tick that finds 2001 fresh samples: the
    slice [ydata[2001:]] of the 2000 padded values is empty, the 2001
    samples are appended whole, and the window holds 2001 values. *)
Theorem live_window_overrun :
  let w := arrive (repeat 0 2001) started in
  length (ydata started) = display_count
  /\ Recording w
  /\ is_measurement_finished w = false
  /\ length (ydata (tick_method w)) = 2001%nat
  /\ ydata (tick_method w) = repeat 0 2001.
Proof. by_evaluation. Qed.

(** ** The scrub window *)




Lemma calculate_slider_jump_value_eq (w : EcgWindow) :
  slider_jump_value (calculate_slider_jump_value w)
  = div_Z_float (Z.of_nat (length (ecg_data w)) - Z.of_nat display_count) 100
  /\ ecg_data (calculate_slider_jump_value w) = ecg_data w.
Proof. split; reflexivity. Qed.





(** ** The tick *)

Lemma is_measurement_finished_iff (w : EcgWindow) :
  is_measurement_finished w = true <-> get_elapsed_time w = measurement_duration.
Proof.
  unfold is_measurement_finished. rewrite Z.eqb_eq. split; congruence.
Qed.

Lemma initialize_slider_frame (w : EcgWindow) :
  is_measurement_in_progress (initialize_slider w) = is_measurement_in_progress w
  /\ timer_active (initialize_slider w) = timer_active w
  /\ ecg_data (initialize_slider w) = ecg_data w
  /\ detector (initialize_slider w) = detector w
  /\ last_processed_index (initialize_slider w) = last_processed_index w
  /\ last_time_health_data_calculated (initialize_slider w)
     = last_time_health_data_calculated w
  /\ slider_shown (widgets (initialize_slider w)) = true
  /\ stack (widgets (initialize_slider w)) = stack (widgets w)
  /\ universal_button (widgets (initialize_slider w)) = universal_button (widgets w)
  /\ message_boxes (widgets (initialize_slider w)) = message_boxes (widgets w)
  /\ rr_interval_label (widgets (initialize_slider w)) = rr_interval_label (widgets w)
  /\ bpm_label (widgets (initialize_slider w)) = bpm_label (widgets w).
Proof.
  unfold initialize_slider, slider_action.
  destruct (slider_window 0 (calculate_slider_jump_value w)).
  repeat split; reflexivity.
Qed.






(** ** Starting a measurement *)

Lemma reset_measurement_data_and_graph_ui_eq (w : EcgWindow) :
  ecg_data (reset_measurement_data_and_graph_ui w) = []
  /\ detector (reset_measurement_data_and_graph_ui w) = reset_detector
  /\ last_processed_index (reset_measurement_data_and_graph_ui w) = 0%nat
  /\ last_time_health_data_calculated (reset_measurement_data_and_graph_ui w) = 0
  /\ ydata (reset_measurement_data_and_graph_ui w)
     = min_ydata_value :: repeat max_ydata_value (display_count - 1)
  /\ rr_interval_label (widgets (reset_measurement_data_and_graph_ui w)) = None
  /\ bpm_label (widgets (reset_measurement_data_and_graph_ui w)) = None
  /\ message_boxes (widgets (reset_measurement_data_and_graph_ui w))
     = message_boxes (widgets w)
  /\ stack (widgets (reset_measurement_data_and_graph_ui w)) = stack (widgets w)
  /\ universal_button (widgets (reset_measurement_data_and_graph_ui w))
     = universal_button (widgets w)
  /\ is_measurement_in_progress (reset_measurement_data_and_graph_ui w)
     = is_measurement_in_progress w
  /\ timer_active (reset_measurement_data_and_graph_ui w) = timer_active w.
Proof. repeat split; reflexivity. Qed.

(** C8 (amended). Starting has no state check.  From any state, Recording
    included, with a port that opens it writes the start code, clears the
    buffer, the detector and the window, starts the timer and is Recording
    on the graph screen, and no error is reported; with a port that does not
    open it reports a connection error and changes nothing else. *)
Theorem start_button_action_unguarded (w : EcgWindow) :
  (Recording (start_button_action true w)
   /\ stack (widgets (start_button_action true w)) = GRAPH
   /\ ecg_data (start_button_action true w) = []
   /\ detector (start_button_action true w) = reset_detector
   /\ last_processed_index (start_button_action true w) = 0%nat
   /\ ydata (start_button_action true w)
      = min_ydata_value :: repeat max_ydata_value (display_count - 1)
   /\ serial_written (start_button_action true w)
      = serial_written w ++ [START_MEASUREMENT]
   /\ message_boxes (widgets (start_button_action true w))
      = message_boxes (widgets w))
  /\ start_button_action false w
     = on_widgets (show_message_box Connection_error) w.
Proof.
  unfold Recording. repeat split; reflexivity.
Qed.

(** A start while Recording, three samples in: the measurement is started
    again and the samples are gone; nothing fails. *)
Lemma start_while_recording_restarts :
  let w := feed [[1000; 3000; 1000]] started in
  Recording w
  /\ ecg_data w = [1000; 3000; 1000]
  /\ Recording (start_button_action true w)
  /\ ecg_data (start_button_action true w) = []
  /\ message_boxes (widgets (start_button_action true w)) = [].
Proof. by_evaluation. Qed.

(** ** Loading a recording *)

Lemma parse_lines_map_Some (values : list Z) :
  parse_lines (map Some values) = Some values.
Proof.
  induction values as [|v values IH]; cbn; [reflexivity|]. now rewrite IH.
Qed.


Lemma load_file_enough (w : EcgWindow) (samples : list Z) :
  (display_count <= length samples)%nat ->
  load_file (Some (Lines (map Some samples))) w = Ok (Some samples, w).
Proof.
  intros H. unfold load_file. rewrite parse_lines_map_Some. cbn [bind].
  apply Nat.ltb_ge in H. rewrite H. reflexivity.
Qed.

(** One computation of the metrics on a window with no measurement in
    progress and both labels blank. *)
Lemma metrics_computed_when_stopped (x : EcgWindow) :
  is_measurement_in_progress x = false ->
  rr_interval_label (widgets x) = None ->
  bpm_label (widgets x) = None ->
  metrics_computed_once (message_boxes (widgets x))
    (calculate_and_update_label_values x).
Proof.
  intros Xp Xr Xb.
  destruct (data_view_fields _ _ (calculate_and_update_label_values_view x))
    as (Ce & _ & _ & _ & Cd & _).
  unfold metrics_computed_once.
  rewrite (get_rr_interval_ext _ x Cd), (get_bpm_ext _ x Cd Ce),
    (get_elapsed_time_ext _ x Ce).
  rewrite (calculate_and_update_label_values_cases x); cbv zeta.
  unfold metrics_due. rewrite Xp. cbn [negb orb].
  destruct (get_rr_interval x) as [rr|e1]; [destruct (get_bpm x) as [bpm|e2]|];
    try match goal with
      | |- context [signal_processing_error ?z] =>
          destruct (signal_processing_error_labels z) as (-> & -> & ->);
          destruct (signal_processing_error_stops z) as (_ & _ & _ & ->)
      end;
    cbn [on_widgets set_widgets widgets set_bpm_label set_rr_interval_label
         set_countdown_label rr_interval_label bpm_label message_boxes
         last_time_health_data_calculated
         set_last_time_health_data_calculated];
    rewrite ?Xb, ?Xr; repeat split; reflexivity.
Qed.

(** The window [load_measurement] computes the metrics on. *)
Lemma load_measurement_scanned (samples : list Z) (w x : EcgWindow) :
  x = detect_r_peaks
        (initialize_slider
           (set_ecg_data samples (reset_measurement_data_and_graph_ui w))) ->
  ecg_data x = samples
  /\ detector x
     = fold_left (detect_step samples)
         (range 0 (Z.of_nat (length samples) - 1)) reset_detector
  /\ is_measurement_in_progress x = is_measurement_in_progress w
  /\ timer_active x = timer_active w
  /\ slider_shown (widgets x) = true
  /\ message_boxes (widgets x) = message_boxes (widgets w)
  /\ rr_interval_label (widgets x) = None
  /\ bpm_label (widgets x) = None.
Proof.
  intros ->.
  destruct (initialize_slider_frame
              (set_ecg_data samples (reset_measurement_data_and_graph_ui w)))
    as (Ip & It & Ie & Id & Ii & _ & Is & _ & _ & Im & Ir & Ib).
  unfold detect_r_peaks, scan_range; cbn [ecg_data detector set_detector
    is_measurement_in_progress timer_active widgets last_processed_index].
  rewrite Ip, It, Ie, Id, Ii, Is, Im, Ir, Ib.
  repeat split; reflexivity.
Qed.

(** [load_measurement] from a window with nothing running. *)
Lemma load_measurement_facts (samples : list Z) (w : EcgWindow) :
  is_measurement_in_progress w = false ->
  timer_active w = false ->
  let y := load_measurement samples w in
  ecg_data y = samples
  /\ detector y
     = fold_left (detect_step samples)
         (range 0 (Z.of_nat (length samples) - 1)) reset_detector
  /\ is_measurement_in_progress y = false
  /\ timer_active y = false
  /\ slider_shown (widgets y) = true
  /\ metrics_computed_once (message_boxes (widgets w)) y.
Proof.
  intros Hp Ht y. subst y. unfold load_measurement.
  change (ecg_data (reset_measurement_data_and_graph_ui w) ++ samples)
    with samples.
  generalize (load_measurement_scanned samples w _ eq_refl).
  generalize (detect_r_peaks
        (initialize_slider
           (set_ecg_data samples (reset_measurement_data_and_graph_ui w)))).
  intros x (Xe & Xd & Xp & Xt & Xs & Xm & Xr & Xb).
  rewrite Hp in Xp. rewrite Ht in Xt.
  destruct (data_view_fields _ _ (calculate_and_update_label_values_view x))
    as (Ce & _ & _ & _ & Cd & _ & _ & Cs).
  destruct (calculate_and_update_label_values_in_progress x) as [Cp Ct].
  rewrite Xp in Cp. rewrite Xt in Ct. cbn [andb] in Cp, Ct.
  rewrite Ce, Cd, Cs, Cp, Ct, <- Xm.
  split; [exact Xe|]. split; [exact Xd|].
  split; [reflexivity|]. split; [reflexivity|]. split; [exact Xs|].
  apply metrics_computed_when_stopped; assumption.
Qed.


Lemma load_button_action_enough (w : EcgWindow) (samples : list Z) :
  (display_count <= length samples)%nat ->
  load_button_action (Some (Lines (map Some samples))) w
  = Ok (switch_stack GRAPH
          (switch_universal_button BACK (load_measurement samples w))).
Proof.
  intros Hlen. unfold load_button_action.
  rewrite (load_file_enough w samples Hlen).
  destruct samples as [|v rest]; [|reflexivity].
  unfold display_count in Hlen; cbn in Hlen; lia.
Qed.

(** One call of [detect_r_peaks] from the start of the buffer is the scan of
    the list. *)
Lemma scan_list_fold (samples pre : list Z) (d : Detector) :
  fold_left (detect_step (pre ++ samples))
    (seq (length pre) (length samples - 1)) d
  = scan_list samples d.
Proof.
  revert pre d; induction samples as [|x samples IH]; intros pre d;
    [reflexivity|].
  destruct samples as [|y rest]; [reflexivity|].
  change (scan_list (x :: y :: rest) d)
    with (scan_list (y :: rest) (detect_values x y d)).
  replace (length (x :: y :: rest) - 1)%nat with (S (length rest))
    by (cbn [length]; lia).
  cbn [seq fold_left].
  assert (Hs : detect_step (pre ++ x :: y :: rest) d (length pre)
               = detect_values x y d).
  { unfold detect_step, detect_values.
    rewrite (nth_middle pre (y :: rest) x 0).
    replace (length pre + 1)%nat with (length (pre ++ [x])) by
      (rewrite length_app; reflexivity).
    replace (pre ++ x :: y :: rest) with ((pre ++ [x]) ++ y :: rest)
      by (rewrite <- app_assoc; reflexivity).
    rewrite (nth_middle (pre ++ [x]) rest y 0). reflexivity. }
  rewrite Hs.
  specialize (IH (pre ++ [x]) (detect_values x y d)).
  rewrite <- app_assoc in IH. cbn [app] in IH.
  rewrite length_app in IH. cbn [length] in IH.
  replace (length pre + 1)%nat with (S (length pre)) in IH by lia.
  replace (S (length rest) - 1)%nat with (length rest) in IH by lia.
  exact IH.
Qed.

Lemma range_from_zero (n : nat) : range 0 (Z.of_nat n - 1) = seq 0 (n - 1).
Proof. unfold range. f_equal. lia. Qed.

Lemma scan_list_whole (samples : list Z) (d : Detector) :
  fold_left (detect_step samples)
    (range 0 (Z.of_nat (length samples) - 1)) d
  = scan_list samples d.
Proof. rewrite range_from_zero. exact (scan_list_fold samples [] d). Qed.



(** ** A loaded recording whose rate comes out one below *)

(** C4. Loading [beats], twenty seconds of signal with a beat every half
    second: 40 intervals are recorded over 10000 samples, the elapsed time
    is 20, and [get_bpm] and the label show 122, [(40 + 1) / 20 * 60] in
    doubles truncated, where [round_down((40 + 1) / 20 * 60)] is 123. *)
Theorem get_bpm_one_below_exact :
  exists w',
    load_button_action (Some (Lines (map Some beats))) init = Ok w'
    /\ Z.of_nat (length (ecg_data w')) = 10000
    /\ length (r_peak_intervals (detector w')) = 40%nat
    /\ get_elapsed_time w' = 20
    /\ get_bpm w' = Ok 122
    /\ bpm_label (widgets w') = Some 122
    /\ bpm_exact 40 20 = 123.
Proof.
  assert (Hlen : (display_count <= length beats)%nat)
    by (apply Nat.leb_le; vm_compute; reflexivity).
  rewrite (load_button_action_enough init beats Hlen).
  destruct (load_measurement_facts beats init eq_refl eq_refl)
    as (Ye & Yd & _ & _ & _ & Ym).
  revert Ye Yd Ym. generalize (load_measurement beats init). intros y Ye Yd Ym.
  rewrite scan_list_whole in Yd.
  assert (He : get_elapsed_time y = 20)
    by (unfold get_elapsed_time; rewrite Ye; vm_compute; reflexivity).
  assert (Hb : get_bpm y = Ok 122)
    by (unfold get_bpm; rewrite He, Yd; vm_compute; reflexivity).
  assert (Hr : exists rr, get_rr_interval y = Ok rr)
    by (unfold get_rr_interval; rewrite Yd; vm_compute; eauto).
  destruct Hr as [rr Hr].
  unfold metrics_computed_once in Ym. rewrite Hr, Hb in Ym.
  destruct Ym as (_ & _ & Hl & _).
  exists (switch_stack GRAPH (switch_universal_button BACK y)).
  split; [reflexivity|].
  split; [change (Z.of_nat (length (ecg_data y)) = 10000);
          rewrite Ye; vm_compute; reflexivity|].
  split; [change (length (r_peak_intervals (detector y)) = 40%nat);
          rewrite Yd; vm_compute; reflexivity|].
  split; [exact He|]. split; [exact Hb|]. split; [exact Hl|].
  reflexivity.
Qed.

(** C10. A selected file that cannot be opened or read: the handler of the
    [try] sets the error code and the next statement reads [file_content],
    which was never assigned; the exception leaves [load_file] and the
    button's slot. *)
Theorem load_unreadable_file_raises (w : EcgWindow) :
  load_file (Some CannotOpen) w = Raise UnboundLocalError
  /\ load_button_action (Some CannotOpen) w = Raise UnboundLocalError.
Proof. split; reflexivity. Qed.

(** ** Elapsed seconds *)

Lemma zrange_In (n : nat) (lo x : Z) :
  lo <= x < lo + Z.of_nat n -> In x (zrange lo n).
Proof.
  revert lo; induction n as [|n IH]; intros lo H; [lia|].
  cbn [zrange]. destruct (Z.eq_dec lo x) as [->|Hne]; [now left|].
  right. apply IH. lia.
Qed.

Lemma elapsed_is_floor_checked :
  forallb elapsed_is_floor (zrange 0 (Z.to_nat 20000)) = true.
Proof. vm_compute. reflexivity. Qed.

(** For every buffer a measurement of this program can hold (it ends at
    15000 samples) the elapsed time is the whole number of seconds,
    [floor(len / 500)]. *)
Lemma get_elapsed_time_floor (w : EcgWindow) :
  Z.of_nat (length (ecg_data w)) < 20000 ->
  get_elapsed_time w = Z.of_nat (length (ecg_data w)) / 500.
Proof.
  intros H. unfold get_elapsed_time.
  pose proof (proj1 (forallb_forall _ _) elapsed_is_floor_checked
                (Z.of_nat (length (ecg_data w)))) as C.
  unfold elapsed_is_floor in C. apply Z.eqb_eq. apply C.
  apply zrange_In. rewrite Z2Nat.id; lia.
Qed.

(** The measurement is over exactly while the buffer holds 15000 to 15499
    samples. *)
Lemma is_measurement_finished_window (w : EcgWindow) :
  Z.of_nat (length (ecg_data w)) < 20000 ->
  is_measurement_finished w = true
  <-> 15000 <= Z.of_nat (length (ecg_data w)) < 15500.
Proof.
  intros H. rewrite is_measurement_finished_iff, (get_elapsed_time_floor w H).
  unfold measurement_duration.
  pose proof (Z.div_mod (Z.of_nat (length (ecg_data w))) 500 ltac:(lia)).
  pose proof (Z.mod_pos_bound (Z.of_nat (length (ecg_data w))) 500 ltac:(lia)).
  lia.
Qed.

Lemma is_measurement_finished_window_witness :
  is_measurement_finished (recorded [] 15000) = true
  <-> 15000 <= Z.of_nat (length (ecg_data (recorded [] 15000))) < 15500.
Proof.
  apply (is_measurement_finished_window (recorded [] 15000)).
  vm_compute. reflexivity.
Defined.

(** ** The live window over a feed *)

(** While every batch is at most a window long, and the scan position is the
    length of the buffer as [process_fresh_data] leaves it, the window keeps
    its [display_count] values. *)
Lemma feed_ydata_length (batches : list (list Z)) (w : EcgWindow) :
  is_measurement_in_progress w = true -> ser w = true ->
  last_processed_index w = length (ecg_data w) ->
  length (ydata w) = display_count ->
  Forall (fun batch => (length batch <= display_count)%nat) batches ->
  length (ydata (feed batches w)) = display_count.
Proof.
  revert w; induction batches as [|batch rest IH]; intros w Hp Hs Hi Hy Hb;
    cbn [feed]; [exact Hy|].
  inversion Hb as [|? ? Hbatch Hrest]; subst.
  rewrite (arrive_accepted batch w Hp Hs).
  apply IH; try assumption; try reflexivity.
  rewrite process_fresh_data_ydata_length.
  cbn [ydata ecg_data last_processed_index set_ecg_data].
  rewrite Hi, Hy, length_app. lia.
Qed.

Lemma feed_ydata_length_witness :
  length (ydata (feed [[1000; 3000]; [1000; 1000]] started)) = display_count.
Proof.
  apply (feed_ydata_length [[1000; 3000]; [1000; 1000]] started);
    try reflexivity.
  repeat (constructor; [apply Nat.leb_le; reflexivity|]). constructor.
Defined.

(** ** The reader at work during a tick *)

Lemma process_fresh_data_not_interleaved (w : EcgWindow) :
  process_fresh_data_interleaved [] [] [] w = process_fresh_data w.
Proof. reflexivity. Qed.


(** ** What the reader and the label computation absorb *)

(** A read that raises, an empty line and a line that is not an integer
    leave the window as it was. *)
Lemma read_serial_absorbs (w : EcgWindow) :
  read_serial ReadRaises w = w
  /\ read_serial EmptyLine w = w
  /\ read_serial NotAnInteger w = w.
Proof.
  unfold read_serial.
  destruct (is_measurement_in_progress w && ser w); repeat split; reflexivity.
Qed.



(** * Further properties of the detector, the reader and the window *)

(** ** What the detector records *)

Lemma scan_trace_peak_above (ecg : list Z) (l : list nat) (d : Detector)
  (e : ScanEvent) :
  In e (scan_trace ecg d l) -> peak_event e = true ->
  r_peak_upper_threshold < scanned_sample e.
Proof.
  revert d; induction l as [|i l IH]; intros d; cbn [scan_trace In]; [tauto|].
  intros [<-|Hin] Hp.
  - cbn [peak_event scanned_sample] in *.
    exact (proj1 (emits_above_upper ecg d i Hp)).
  - exact (IH _ Hin Hp).
Qed.

(** No peak is declared at a sample that is not above the upper threshold
    (2600), whatever the batches. *)
Theorem peak_events_above_upper_threshold (batches : list (list Z))
  (w : EcgWindow) (e : ScanEvent) :
  In e (feed_trace batches w) -> peak_event e = true ->
  r_peak_upper_threshold < scanned_sample e.
Proof.
  revert w; induction batches as [|batch rest IH]; intros w; cbn [feed_trace In];
    [tauto|].
  intros Hin Hp. apply in_app_or in Hin. destruct Hin as [Hin|Hin].
  - exact (scan_trace_peak_above _ _ _ _ Hin Hp).
  - exact (IH _ Hin Hp).
Qed.

Lemma peak_events_above_upper_threshold_witness :
  r_peak_upper_threshold
  < scanned_sample
      {| scanned_index := 1; scanned_sample := 3000; peak_event := true |}.
Proof.
  apply (peak_events_above_upper_threshold [[1000; 3000; 1000; 1000]] started);
    [right; left; reflexivity | reflexivity].
Defined.

Lemma detect_step_ok (ecg : list Z) (d : Detector) (i : nat) :
  detector_ok d -> detector_ok (detect_step ecg d i).
Proof.
  intros [Hc Hi]. destruct (emits ecg d i) eqn:E.
  - rewrite (detect_step_emits ecg d i E). split; cbn; [lia|].
    apply Forall_app. split; [exact Hi|].
    constructor; [|constructor]. split.
    + unfold sampling_time. lia.
    + apply Z.mod_mul. unfold sampling_time. lia.
  - rewrite (detect_step_silent ecg d i E). split; cbn; [lia | exact Hi].
Qed.

Lemma fold_detect_step_ok (ecg : list Z) (l : list nat) (d : Detector) :
  detector_ok d -> detector_ok (fold_left (detect_step ecg) l d).
Proof.
  revert d; induction l as [|i l IH]; intros d H; cbn [fold_left]; [exact H|].
  apply IH. now apply detect_step_ok.
Qed.

Lemma process_fresh_data_ok (w : EcgWindow) :
  detector_ok (detector w) -> detector_ok (detector (process_fresh_data w)).
Proof. rewrite process_fresh_data_detector. apply fold_detect_step_ok. Qed.

(** Every interval the detector records is a positive whole number of
    sampling times (2 ms), whatever the batches, when those it started with
    are. *)
Theorem feed_intervals_positive (batches : list (list Z)) (w : EcgWindow) :
  detector_ok (detector w) ->
  Forall (fun v => 0 < v /\ v mod sampling_time = 0)
    (r_peak_intervals (detector (feed batches w))).
Proof.
  intros H. enough (detector_ok (detector (feed batches w))) as [_ Hi] by exact Hi.
  revert w H; induction batches as [|batch rest IH]; intros w H; cbn [feed];
    [exact H|].
  apply IH. apply process_fresh_data_ok. now rewrite arrive_detector.
Qed.

Lemma feed_intervals_positive_witness :
  Forall (fun v => 0 < v /\ v mod sampling_time = 0)
    (r_peak_intervals (detector (feed [[1000; 3000; 1000; 1000]] started))).
Proof.
  apply (feed_intervals_positive [[1000; 3000; 1000; 1000]] started).
  split; [cbn; lia | constructor].
Defined.

Lemma sum_app_one (l : list Z) (v : Z) : sum (l ++ [v]) = sum l + v.
Proof.
  unfold sum. induction l as [|x l IH]; cbn [app fold_right]; [lia|].
  rewrite IH. lia.
Qed.

Lemma detect_step_accounted (ecg : list Z) (d : Detector) (i : nat) :
  accounted_time (detect_step ecg d i) = accounted_time d + sampling_time.
Proof.
  unfold accounted_time. destruct (emits ecg d i) eqn:E.
  - rewrite (detect_step_emits ecg d i E); cbn [r_peak_intervals r_peak_interval_counter].
    rewrite sum_app_one. lia.
  - rewrite (detect_step_silent ecg d i E); cbn [r_peak_intervals r_peak_interval_counter].
    lia.
Qed.

Lemma fold_detect_step_accounted (ecg : list Z) (l : list nat) (d : Detector) :
  accounted_time (fold_left (detect_step ecg) l d)
  = accounted_time d + sampling_time * Z.of_nat (length l).
Proof.
  revert d; induction l as [|i l IH]; intros d; cbn [fold_left length]; [lia|].
  rewrite IH, detect_step_accounted. lia.
Qed.

Lemma scan_trace_length (ecg : list Z) (l : list nat) (d : Detector) :
  length (scan_trace ecg d l) = length l.
Proof.
  revert d; induction l as [|i l IH]; intros d; cbn [scan_trace length];
    [reflexivity|]. now rewrite IH.
Qed.

(** The detector loses no time: the intervals recorded plus the samples
    counted since the last peak grow by one sampling time for every sample
    scanned, whatever the batches. *)
Theorem feed_accounted_time (batches : list (list Z)) (w : EcgWindow) :
  accounted_time (detector (feed batches w))
  = accounted_time (detector w)
    + sampling_time * Z.of_nat (length (feed_trace batches w)).
Proof.
  revert w; induction batches as [|batch rest IH]; intros w;
    cbn [feed feed_trace length]; [lia|].
  rewrite IH, process_fresh_data_detector, fold_detect_step_accounted.
  rewrite length_app. unfold invocation_trace.
  rewrite scan_trace_length, arrive_detector. lia.
Qed.

Lemma process_fresh_data_fixed (w : EcgWindow) :
  last_processed_index w = length (ecg_data w) -> process_fresh_data w = w.
Proof.
  destruct w as [s sw e p t y i lt j d g]; cbn. intros ->.
  unfold process_fresh_data, detect_r_peaks, scan_range, range, set_ydata,
    set_detector, set_last_processed_index; cbn.
  rewrite skipn_all. cbn [length skipn]. rewrite app_nil_r.
  replace (Z.to_nat (Z.of_nat (length e) - 1 - Z.of_nat (length e)))
    with 0%nat by lia.
  reflexivity.
Qed.

(** A second [process_fresh_data] with no sample in between changes
    nothing: a tick that finds no fresh sample leaves the window, the
    detector and the scan position as they were. *)
Theorem process_fresh_data_idempotent (w : EcgWindow) :
  process_fresh_data (process_fresh_data w) = process_fresh_data w.
Proof. apply process_fresh_data_fixed. reflexivity. Qed.

(** ** What the reader appends *)

Lemma ingest_arrive (batch : list Z) (w : EcgWindow) :
  ingest (map Sample batch) w = arrive batch w.
Proof.
  unfold ingest, arrive. revert w.
  induction batch as [|v batch IH]; intros w; cbn [map fold_left];
    [reflexivity | apply IH].
Qed.

Lemma ingest_accepted (readings : list Reading) (w : EcgWindow) :
  is_measurement_in_progress w && ser w = true ->
  ingest readings w = set_ecg_data (ecg_data w ++ samples_of readings) w.
Proof.
  revert w; induction readings as [|r readings IH]; intros w H.
  - cbn. rewrite app_nil_r. destruct w; reflexivity.
  - unfold ingest in *. cbn [fold_left samples_of flat_map].
    fold (samples_of readings).
    assert (Hr : read_serial r w
                 = set_ecg_data
                     (ecg_data w ++ match r with Sample value => [value] | _ => [] end) w).
    { unfold read_serial. rewrite H.
      destruct r; try reflexivity; rewrite app_nil_r; destruct w; reflexivity. }
    rewrite Hr, IH by exact H. cbn [ecg_data set_ecg_data].
    rewrite <- app_assoc. reflexivity.
Qed.

Lemma ingest_refused (readings : list Reading) (w : EcgWindow) :
  is_measurement_in_progress w && ser w = false -> ingest readings w = w.
Proof.
  intros H. unfold ingest. induction readings as [|r readings IH];
    [reflexivity|].
  cbn [fold_left]. unfold read_serial at 2. rewrite H. exact IH.
Qed.

(** Over any sequence of readings the reader appends exactly the samples
    among them, in the order read, while a measurement is in progress on an
    open port; reads that raise, empty lines and lines that are not integers
    are dropped and nothing else of the window changes.  Otherwise the
    reader changes nothing. *)
Theorem ingest_appends_samples_in_order (readings : list Reading) (w : EcgWindow) :
  ingest readings w
  = if is_measurement_in_progress w && ser w
    then set_ecg_data (ecg_data w ++ samples_of readings) w
    else w.
Proof.
  destruct (is_measurement_in_progress w && ser w) eqn:H.
  - now apply ingest_accepted.
  - now apply ingest_refused.
Qed.

(** Once the measurement is stopped, whatever the reader still reads is not
    appended: the buffer is frozen. *)
Theorem stop_measurement_freezes_buffer (readings : list Reading) (w : EcgWindow) :
  ingest readings (stop_measurement w) = stop_measurement w.
Proof.
  apply ingest_refused.
  destruct (stop_measurement_stops w) as (-> & _). reflexivity.
Qed.

(** ** The reader at work inside [process_fresh_data] *)

(** With the reader appending [a1] between the two reads of the fresh
    samples, [a2] before the scan and [a3] after it: the window is longer by
    the length of [a1], and the scan position ends at the end of the buffer,
    past [a2] and [a3], which are therefore never shown in the live window,
    and past [a3], which is never scanned. *)
Theorem process_fresh_data_interleaved_window (a1 a2 a3 : list Z) (w : EcgWindow) :
  is_measurement_in_progress w = true -> ser w = true ->
  (last_processed_index w <= length (ecg_data w))%nat ->
  length (ydata (process_fresh_data_interleaved a1 a2 a3 w))
  = (Nat.max (length (ydata w)) (length (ecg_data w) - last_processed_index w)
     + length a1)%nat
  /\ ydata (process_fresh_data_interleaved a1 a2 a3 w)
     = ydata (process_fresh_data_interleaved a1 [] [] w)
  /\ ecg_data (process_fresh_data_interleaved a1 a2 a3 w)
     = ecg_data w ++ a1 ++ a2 ++ a3
  /\ last_processed_index (process_fresh_data_interleaved a1 a2 a3 w)
     = length (ecg_data w ++ a1 ++ a2 ++ a3)
  /\ scan_range (arrive a2 (arrive a1 w))
     = range (last_processed_index w)
         (Z.of_nat (length (ecg_data w ++ a1 ++ a2)) - 1).
Proof.
  destruct w as [s sw e p t y i lt j d g].
  cbn [is_measurement_in_progress ser last_processed_index ecg_data ydata].
  intros -> -> Hi.
  unfold process_fresh_data_interleaved.
  rewrite (arrive_accepted a1) by reflexivity.
  cbn [last_processed_index ecg_data ydata set_ecg_data set_ydata].
  rewrite (arrive_accepted a2) by reflexivity.
  cbn [last_processed_index ecg_data ydata set_ecg_data set_ydata].
  rewrite !(arrive_accepted []) by reflexivity.
  unfold detect_r_peaks.
  cbn [last_processed_index ecg_data ydata set_ecg_data set_ydata set_detector
       set_last_processed_index].
  rewrite !(arrive_accepted a3) by reflexivity.
  cbn [last_processed_index ecg_data ydata set_ecg_data set_ydata set_detector
       set_last_processed_index].
  rewrite <- ?app_assoc, ?app_nil_r.
  split.
  { rewrite length_app, !length_skipn, length_app. lia. }
  split; [reflexivity|].
  split; [reflexivity|].
  split; [reflexivity|].
  unfold scan_range. rewrite (arrive_accepted a2) by reflexivity.
  cbn [last_processed_index ecg_data set_ecg_data].
  rewrite <- ?app_assoc. reflexivity.
Qed.

Lemma process_fresh_data_interleaved_window_witness :
  length (ydata (process_fresh_data_interleaved [7] [8] [9]
                   (arrive [1000; 3000; 1000] started)))
  = S display_count
  /\ last_processed_index (process_fresh_data_interleaved [7] [8] [9]
                             (arrive [1000; 3000; 1000] started))
     = 6%nat.
Proof.
  destruct (process_fresh_data_interleaved_window [7] [8] [9]
              (arrive [1000; 3000; 1000] started))
    as (L & _ & _ & I & _).
  - reflexivity.
  - reflexivity.
  - apply Nat.leb_le. reflexivity.
  - split; [rewrite L | rewrite I]; reflexivity.
Defined.

(** ** When the metrics fail *)

(** [get_bpm] fails exactly when no whole second has elapsed, and then with
    the division by zero. *)
Theorem get_bpm_fails_iff (w : EcgWindow) :
  ((exists e, get_bpm w = Raise e) <-> get_elapsed_time w = 0)
  /\ (forall e, get_bpm w = Raise e -> e = ZeroDivisionError).
Proof.
  split; [split|].
  - intros [e H]. exact (proj2 (get_bpm_raises w e H)).
  - intros H. exists ZeroDivisionError. unfold get_bpm, truediv. now rewrite H.
  - intros e H. exact (proj1 (get_bpm_raises w e H)).
Qed.

Lemma metrics_fail_cases (w : EcgWindow) :
  metrics_fail w = true
  <-> r_peak_intervals (detector w) = [] \/ get_elapsed_time w = 0.
Proof.
  unfold metrics_fail. split.
  - destruct (get_rr_interval w) as [rr|e] eqn:R.
    + destruct (get_bpm w) as [b|e] eqn:B; [discriminate|].
      intros _. right. exact (proj2 (get_bpm_raises w e B)).
    + intros _. left. apply get_rr_interval_empty.
      now rewrite (get_rr_interval_raises w e R) in R.
  - intros [H|H].
    + apply get_rr_interval_empty in H. now rewrite H.
    + destruct (get_rr_interval w); [|reflexivity].
      unfold get_bpm, truediv. now rewrite H.
Qed.

(** For a buffer of fewer than 20000 samples, the computation of the
    metrics fails exactly when no interval has been recorded or fewer than
    500 samples, one second, are in the buffer. *)
Theorem metrics_fail_iff (w : EcgWindow) :
  Z.of_nat (length (ecg_data w)) < 20000 ->
  metrics_fail w = true
  <-> r_peak_intervals (detector w) = []
      \/ Z.of_nat (length (ecg_data w)) < 500.
Proof.
  intros H. rewrite metrics_fail_cases, (get_elapsed_time_floor w H).
  pose proof (Z.div_mod (Z.of_nat (length (ecg_data w))) 500 ltac:(lia)).
  pose proof (Z.mod_pos_bound (Z.of_nat (length (ecg_data w))) 500 ltac:(lia)).
  split; (intros [E|E]; [left; exact E | right; lia]).
Qed.

Lemma metrics_fail_iff_witness :
  metrics_fail (recorded [800] 499) = true
  <-> r_peak_intervals (detector (recorded [800] 499)) = []
      \/ Z.of_nat (length (ecg_data (recorded [800] 499))) < 500.
Proof.
  apply (metrics_fail_iff (recorded [800] 499)). vm_compute. reflexivity.
Defined.

(** Periodic metrics come on the ticks where exactly three more seconds
    have elapsed; once a tick finds more than three, no later buffer of the
    measurement makes them due again. *)
Theorem metrics_never_due_after_a_skip (w w' : EcgWindow) :
  Z.of_nat (length (ecg_data w')) < 20000 ->
  (length (ecg_data w) <= length (ecg_data w'))%nat ->
  last_time_health_data_calculated w' = last_time_health_data_calculated w ->
  time_between_health_data_calculations
  < get_elapsed_time w - last_time_health_data_calculated w ->
  is_health_data_ready_for_calculation w' = false.
Proof.
  intros H' Hle Hl Hskip.
  unfold is_health_data_ready_for_calculation.
  rewrite (get_elapsed_time_floor w') by exact H'.
  rewrite (get_elapsed_time_floor w) in Hskip by lia.
  rewrite Hl. apply Z.eqb_neq.
  assert (Z.of_nat (length (ecg_data w)) / 500
          <= Z.of_nat (length (ecg_data w')) / 500)
    by (apply Z.div_le_mono; lia).
  lia.
Qed.

Lemma metrics_never_due_after_a_skip_witness :
  is_health_data_ready_for_calculation (recorded [800] 2600) = false.
Proof.
  apply (metrics_never_due_after_a_skip (recorded [800] 2000) (recorded [800] 2600)).
  - vm_compute. reflexivity.
  - apply (proj1 (Nat.leb_le _ _)). vm_compute. reflexivity.
  - vm_compute. reflexivity.
  - vm_compute. reflexivity.
Defined.
